(** * COVID-19 dashboard: the filter -> aggregate pipeline of
      [src/app.py] and [src/covid19/app.py]

    Both scripts load a CSV into a pandas DataFrame, filter it by a set of
    provinces and an inclusive date range, and feed the filtered frame to a
    fixed set of aggregations.  This development embeds

    - the table operations the scripts call ([isin], boolean masks,
      [sort_values], [groupby(..).last()], [reindex], [fillna], [dropna],
      [groupby(..).sum()], [corr]) in [Module Pandas], and column selection,
      row-wise [dropna] and [reset_index] in [Module Frame];
    - the control effects of the scripts ([st.stop], [st.warning],
      [st.sidebar.error], an uncaught [KeyError]) in [Module Streamlit];
    - each script, top to bottom, in [Module App] and [Module Covid19].

    Plotting, layout and widget state are outside the model: the widgets'
    values are the [Controls] a run receives. *)

From Stdlib Require Import List String ZArith QArith Reals Lia Lra Lqa Bool.
From Stdlib Require Import Permutation Sorted.
Import ListNotations.

Close Scope Q_scope.
Close Scope R_scope.
Open Scope string_scope.
Open Scope list_scope.
Open Scope Z_scope.

(* ================================================================== *)
(** * Data model *)
(* ================================================================== *)

(** A calendar date, as [Series.dt.date] and [st.date_input] produce them
    ([datetime.date]); Python orders dates as the triple (year, month, day). *)
Record date := mkDate { year : Z; month : Z; day : Z }.

Definition date_cmp (a b : date) : comparison :=
  match year a ?= year b with
  | Eq => match month a ?= month b with
          | Eq => day a ?= day b
          | c => c
          end
  | c => c
  end.

(** [a <= b], [a < b] and [a == b] on dates. *)
Definition date_leb (a b : date) : bool :=
  match date_cmp a b with Gt => false | _ => true end.
Definition date_ltb (a b : date) : bool :=
  match date_cmp a b with Lt => true | _ => false end.
Definition date_eqb (a b : date) : bool :=
  match date_cmp a b with Eq => true | _ => false end.

Definition date_le (a b : date) : Prop := date_leb a b = true.
Definition date_lt (a b : date) : Prop := date_ltb a b = true.

Definition date_eq_dec (a b : date) : {a = b} + {a <> b}.
Proof. decide equality; apply Z.eq_dec. Defined.

(** The seven numeric columns the scripts read. *)
Inductive NumCol :=
| NewCases | NewDeaths | NewRecovered
| TotalCases | TotalDeaths | TotalRecovered | TotalActiveCases.

Definition col_name (c : NumCol) : string :=
  match c with
  | NewCases => "New Cases"
  | NewDeaths => "New Deaths"
  | NewRecovered => "New Recovered"
  | TotalCases => "Total Cases"
  | TotalDeaths => "Total Deaths"
  | TotalRecovered => "Total Recovered"
  | TotalActiveCases => "Total Active Cases"
  end.

(** One row of the CSV.  [index] is the label pandas gives the row when it
    reads the file; a numeric cell is [None] when it is null (NaN) -- or when
    the file has no such column, in which case no script reads it.  The date
    cell is the already parsed [Date] ([pd.to_datetime]). *)
Record Row := mkRow {
  index : nat;
  Date : date;
  Province : option string;
  New_Cases : option Z;
  New_Deaths : option Z;
  New_Recovered : option Z;
  Total_Cases : option Z;
  Total_Deaths : option Z;
  Total_Recovered : option Z;
  Total_Active_Cases : option Z
}.

(** [row[c]] for a numeric column. *)
Definition num (c : NumCol) (r : Row) : option Z :=
  match c with
  | NewCases => New_Cases r
  | NewDeaths => New_Deaths r
  | NewRecovered => New_Recovered r
  | TotalCases => Total_Cases r
  | TotalDeaths => Total_Deaths r
  | TotalRecovered => Total_Recovered r
  | TotalActiveCases => Total_Active_Cases r
  end.

(** A DataFrame: the column labels that exist, and the rows in order. *)
Record DataFrame := mkDF { columns : list string; rows : list Row }.

(** [c in df.columns] *)
Definition has_col (c : string) (df : DataFrame) : bool :=
  existsb (String.eqb c) (columns df).

(** [set(cs).issubset(df.columns)] *)
Definition issubset (cs : list string) (df : DataFrame) : bool :=
  forallb (fun c => has_col c df) cs.

(** [x.empty] for a Series or for the rows of a frame that has columns. *)
Definition empty {A : Type} (l : list A) : bool :=
  match l with [] => true | _ :: _ => false end.

(* ================================================================== *)
(** * The pandas operations the scripts use *)
(* ================================================================== *)

Module Pandas.

(** A Series (or a frame with one or two value columns) indexed by label. *)
Definition Series (K V : Type) := list (K * V).

(** [Series.isin(values)] on one cell: a null is in no list of strings. *)
Definition isin (v : option string) (values : list string) : bool :=
  match v with
  | Some s => existsb (String.eqb s) values
  | None => false
  end.

(** [sort_values("Date")].  The scripts leave [kind] at its default,
    "quicksort", for which pandas promises an ascending rearrangement of the
    rows and nothing about the order of rows with equal keys.  The interface
    carries exactly that contract; [key] reads the sort column of a row. *)
Class DateSort := {
  sort_values : forall {A : Type}, (A -> date) -> list A -> list A;
  sort_values_perm :
    forall (A : Type) (key : A -> date) (l : list A),
      Permutation l (sort_values key l);
  sort_values_sorted :
    forall (A : Type) (key : A -> date) (l : list A),
      StronglySorted (fun a b => date_le (key a) (key b)) (sort_values key l)
}.

(** A sort that in addition keeps rows with equal dates in their original
    order ([kind="stable"]). *)
Class StableDateSort (S : DateSort) := {
  sort_values_stable :
    forall (A : Type) (key : A -> date) (l : list A) (d : date),
      filter (fun a => date_eqb (key a) d) (sort_values key l)
      = filter (fun a => date_eqb (key a) d) l
}.

(** Insertion sort, a stable implementation of the interface. *)
Fixpoint insert_by {A : Type} (key : A -> date) (x : A) (l : list A) : list A :=
  match l with
  | [] => [x]
  | y :: t => if date_leb (key x) (key y) then x :: y :: t
              else y :: insert_by key x t
  end.

Fixpoint insertion_sort {A : Type} (key : A -> date) (l : list A) : list A :=
  match l with
  | [] => []
  | x :: t => insert_by key x (insertion_sort key t)
  end.

(** The same with ties the other way round: a row goes behind the rows of
    its date that are already placed.  It sorts as well, and is not stable. *)
Fixpoint insert_behind {A : Type} (key : A -> date) (x : A) (l : list A)
  : list A :=
  match l with
  | [] => [x]
  | y :: t => if date_ltb (key x) (key y) then x :: y :: t
              else y :: insert_behind key x t
  end.

Fixpoint reversing_sort {A : Type} (key : A -> date) (l : list A) : list A :=
  match l with
  | [] => []
  | x :: t => insert_behind key x (reversing_sort key t)
  end.

(** ** groupby("Province") *)

(** The group labels: the distinct non-null provinces.  (pandas lists them
    in sorted order; every use below re-indexes the result by the selected
    provinces, so the order of the groups is not observable.) *)
Definition group_keys (rs : list Row) : list string :=
  nodup string_dec
    (flat_map (fun r => match Province r with Some p => [p] | None => [] end) rs).

Definition in_group (k : string) (r : Row) : bool :=
  match Province r with Some p => String.eqb p k | None => false end.

(** Each group keeps its rows in the order of the frame. *)
Definition groupby_Province (rs : list Row) : Series string (list Row) :=
  map (fun k => (k, filter (in_group k) rs)) (group_keys rs).

(** [GroupBy.last()] on one column takes the last entry that is not null
    (its documented behaviour: nulls are skipped), null if there is none. *)
Fixpoint last_valid (vs : list (option Z)) : option Z :=
  match vs with
  | [] => None
  | v :: t => match last_valid t with
              | Some x => Some x
              | None => v
              end
  end.

(** [.groupby("Province")[c].last()] *)
Definition groupby_last (c : NumCol) (rs : list Row) : Series string (option Z) :=
  map (fun g => (fst g, last_valid (map (num c) (snd g)))) (groupby_Province rs).

(** [.groupby("Province")[[c1, c2]].last()]: column by column. *)
Definition groupby_last2 (c1 c2 : NumCol) (rs : list Row)
  : Series string (option Z * option Z) :=
  map (fun g => (fst g, (last_valid (map (num c1) (snd g)),
                         last_valid (map (num c2) (snd g)))))
      (groupby_Province rs).

(** [s.loc[k]] when the label exists. *)
Fixpoint loc {V : Type} (k : string) (s : Series string V) : option V :=
  match s with
  | [] => None
  | (k', v) :: t => if String.eqb k k' then Some v else loc k t
  end.

(** [.reindex(labels)]: one entry per label, in the order of [labels]; a
    label the Series lacks gets the null value [nan]. *)
Definition reindex {V : Type} (nan : V) (labels : list string)
  (s : Series string V) : Series string V :=
  map (fun k => (k, match loc k s with Some v => v | None => nan end)) labels.

(** [.fillna(x)] *)
Definition fillna (x : Z) (s : Series string (option Z)) : Series string Z :=
  map (fun kv => (fst kv, match snd kv with Some v => v | None => x end)) s.

(** [.dropna()] on a Series and on a two-column frame (any null drops). *)
Definition dropna (s : Series string (option Z)) : Series string Z :=
  flat_map (fun kv => match snd kv with Some v => [(fst kv, v)] | None => [] end) s.

Definition dropna2 (s : Series string (option Z * option Z))
  : Series string (Z * Z) :=
  flat_map (fun kv => match snd kv with
                      | (Some a, Some b) => [(fst kv, (a, b))]
                      | _ => []
                      end) s.

(** ** Series.dropna().unique(), Series.min(), Series.max() *)

(** [.dropna()] on a column of labels. *)
Definition dropna_labels (s : list (option string)) : list string :=
  flat_map (fun v => match v with Some x => [x] | None => [] end) s.

(** [.unique()]: the distinct values, in order of first appearance. *)
Fixpoint unique (l : list string) : list string :=
  match l with
  | [] => []
  | x :: t => x :: filter (fun y => negb (String.eqb y x)) (unique t)
  end.

(** [.min()] and [.max()] of a date column: [None] stands for the NaT of an
    empty column. *)
Definition date_min (ds : list date) : option date :=
  match ds with
  | [] => None
  | d :: t => Some (fold_left (fun m x => if date_leb x m then x else m) t d)
  end.

Definition date_max (ds : list date) : option date :=
  match ds with
  | [] => None
  | d :: t => Some (fold_left (fun m x => if date_leb m x then x else m) t d)
  end.

(** ** groupby("Date")[c].sum().sort_index() *)

(** [sum] skips nulls. *)
Definition sum_valid (vs : list (option Z)) : Z :=
  fold_right (fun v acc => match v with Some x => x + acc | None => acc end) 0 vs.

Definition groupby_Date_sum (c : NumCol) (rs : list Row) : Series date Z :=
  map (fun d => (d, sum_valid (map (num c)
                                  (filter (fun r => date_eqb (Date r) d) rs))))
      (nodup date_eq_dec (map Date rs)).

Definition sort_index `{DateSort} (s : Series date Z) : Series date Z :=
  sort_values fst s.

(** ** DataFrame.corr() *)

(** Pearson's correlation coefficient of two columns, over the rows where
    both cells are present, in exact arithmetic (the rounding of pandas'
    floating-point evaluation is not modelled).  With no such row, or when
    one of the columns has no spread (the divisor is zero), the entry is
    NaN, here [None]. *)
Definition observations (c1 c2 : NumCol) (rs : list Row) : list (Z * Z) :=
  flat_map (fun r => match num c1 r, num c2 r with
                     | Some x, Some y => [(x, y)]
                     | _, _ => []
                     end) rs.

Definition Qsum (l : list Q) : Q := fold_right Qplus 0%Q l.

Definition mean (xs : list Z) : Q :=
  (Qsum (map inject_Z xs) / inject_Z (Z.of_nat (List.length xs)))%Q.

(** Sum over the observations of [(x - mx) * (y - my)]. *)
Definition codeviation (mx my : Q) (obs : list (Z * Z)) : Q :=
  Qsum (map (fun p => ((inject_Z (fst p) - mx) * (inject_Z (snd p) - my))%Q) obs).

Definition pearson (obs : list (Z * Z)) : option R :=
  if empty obs then None
  else
    let mx := mean (map fst obs) in
    let my := mean (map snd obs) in
    let ssx := codeviation mx mx (map (fun p => (fst p, fst p)) obs) in
    let ssy := codeviation my my (map (fun p => (snd p, snd p)) obs) in
    let cov := codeviation mx my obs in
    if Qeq_bool (ssx * ssy) 0 then None
    else Some (Q2R cov / sqrt (Q2R (ssx * ssy)))%R.

(** The matrix, row [i] holding the entries [(i, j)]. *)
Definition corr (cs : list NumCol) (rs : list Row) : list (list (option R)) :=
  map (fun ci => map (fun cj => pearson (observations ci cj rs)) cs) cs.

(** Entry [(i, j)] of a matrix; [None] outside it. *)
Definition entry (m : list (list (option R))) (i j : nat) : option (option R) :=
  match nth_error m i with
  | Some row => nth_error row j
  | None => None
  end.

End Pandas.

(** ** Column selection, row-wise dropna, reset_index *)

(** The frame [df[cols_show]] of the detail table: five cells per row. *)
Record DetailRow := mkDetail {
  d_index : nat;
  d_Date : date;
  d_Province : option string;
  d_New_Cases : option Z;
  d_New_Deaths : option Z;
  d_New_Recovered : option Z
}.

Module Frame.
Import Pandas.

(** [df[["Date", "Province", "New Cases", "New Deaths", "New Recovered"]]]
    on one row: the index label stays. *)
Definition project (r : Row) : DetailRow :=
  {| d_index := index r; d_Date := Date r; d_Province := Province r;
     d_New_Cases := New_Cases r; d_New_Deaths := New_Deaths r;
     d_New_Recovered := New_Recovered r |}.

(** [df["Province"] == prov] on one row: a null equals no string. *)
Definition province_eq (prov : string) (r : Row) : bool :=
  match Province r with Some p => String.eqb p prov | None => false end.

(** [.reset_index(drop=True)]: the rows are relabelled 0, 1, 2, ... *)
Definition relabel (i : nat) (r : DetailRow) : DetailRow :=
  {| d_index := i; d_Date := d_Date r; d_Province := d_Province r;
     d_New_Cases := d_New_Cases r; d_New_Deaths := d_New_Deaths r;
     d_New_Recovered := d_New_Recovered r |}.

Fixpoint reset_index_from (i : nat) (l : list DetailRow) : list DetailRow :=
  match l with
  | [] => []
  | r :: t => relabel i r :: reset_index_from (S i) t
  end.

Definition reset_index (l : list DetailRow) : list DetailRow :=
  reset_index_from 0 l.

(** [df[cs].dropna()]: the rows with no null in any of the columns [cs]. *)
Definition notna (v : option Z) : bool :=
  match v with Some _ => true | None => false end.

Definition dropna_rows (cs : list NumCol) (rs : list Row) : list Row :=
  filter (fun r => forallb (fun c => notna (num c r)) cs) rs.

(** [df.empty]: some axis has length 0. *)
Definition df_empty (df : DataFrame) : bool :=
  empty (columns df) || empty (rows df).

End Frame.

(* ================================================================== *)
(** * Python built-ins *)
(* ================================================================== *)

Module Python.

(** [sorted(xs)] on strings: ascending in Python's string order, which
    compares code points -- on the UTF-8 bytes of the model, [String.leb].
    Python's sort is stable; so is this insertion sort. *)
Fixpoint insert (x : string) (l : list string) : list string :=
  match l with
  | [] => [x]
  | y :: t => if String.leb x y then x :: y :: t else y :: insert x t
  end.

Fixpoint sorted (l : list string) : list string :=
  match l with
  | [] => []
  | x :: t => insert x (sorted t)
  end.

End Python.

(* ================================================================== *)
(** * The effects of a Streamlit script run *)
(* ================================================================== *)

Module Streamlit.

(** What a run shows besides its charts. *)
Inductive Notice :=
| Warning (msg : string)        (* st.warning *)
| SidebarError (msg : string).  (* st.sidebar.error *)

Inductive Exn := KeyError (key : string).

(** How a run (or a part of it) ends: with a value, halted by [st.stop],
    or by an exception nobody catches. *)
Inductive Res (A : Type) :=
| Done (a : A)
| Stopped (msg : string)
| Raised (e : Exn).
Arguments Done {A} a.
Arguments Stopped {A} msg.
Arguments Raised {A} e.

(** A script: the notices shown so far, and how it ended. *)
Definition Script (A : Type) : Type := list Notice * Res A.

Definition ret {A : Type} (a : A) : Script A := ([], Done a).

Definition bind {A B : Type} (m : Script A) (f : A -> Script B) : Script B :=
  match m with
  | (ns, Done a) => let (ns', r) := f a in (ns ++ ns', r)
  | (ns, Stopped msg) => (ns, Stopped msg)
  | (ns, Raised e) => (ns, Raised e)
  end.

(** [st.stop(msg)].  The scripts hand [st.stop] the text they want shown;
    the model records it as the text the run halts on. *)
Definition stop {A : Type} (msg : string) : Script A := ([], Stopped msg).
Definition raise {A : Type} (e : Exn) : Script A := ([], Raised e).
Definition warning (msg : string) : Script unit := ([Warning msg], Done tt).
Definition sidebar_error (msg : string) : Script unit :=
  ([SidebarError msg], Done tt).

(** [df[c]] (or [df[[...]]]) in a script: a [KeyError] on the first label
    the frame lacks. *)
Fixpoint require_cols (cs : list string) (df : DataFrame) : Script unit :=
  match cs with
  | [] => ret tt
  | c :: t => if has_col c df then require_cols t df else raise (KeyError c)
  end.

(** [for x in xs: body(x)], collecting the values. *)
Fixpoint for_each {A B : Type} (xs : list A) (body : A -> Script B)
  : Script (list B) :=
  match xs with
  | [] => ret []
  | x :: t => bind (body x) (fun b =>
              bind (for_each t body) (fun bs => ret (b :: bs)))
  end.

(** The widget values of one run. *)
Record Controls := mkControls {
  provinces : list string;   (* st.sidebar.multiselect *)
  start_date : date;         (* st.sidebar.date_input "Dari tanggal" *)
  end_date : date;           (* st.sidebar.date_input "Sampai tanggal" *)
  show_all : bool            (* st.checkbox *)
}.

End Streamlit.

Declare Scope script_scope.
Delimit Scope script_scope with script.
Notation "x <- c1 ;; c2" := (Streamlit.bind c1 (fun x => c2))
  (at level 61, c1 at next level, right associativity) : script_scope.
Notation "c1 ;;; c2" := (Streamlit.bind c1 (fun _ => c2))
  (at level 61, right associativity) : script_scope.

(* ================================================================== *)
(** * src/app.py *)
(* ================================================================== *)

Module App.
Import Pandas Frame Streamlit.
Local Open Scope script_scope.

(** The texts of the script's messages (the leading emoji is left out). *)
Definition msg_no_file : string :=
  "File 'covid_19_indonesia_clean.csv' tidak ditemukan.".
Definition msg_no_date : string := "Kolom 'Date' tidak ada di dataset.".
Definition msg_no_province : string := "Kolom 'Province' tidak ada di dataset.".
Definition msg_date_range : string :=
  "'Dari tanggal' tidak boleh melebihi 'Sampai tanggal'.".

(** [load_data] (lines 32-41).  [file] is [None] when the CSV does not
    exist, else what [pd.read_csv] and [pd.to_datetime] make of it. *)
Definition load_data (file : option DataFrame) : Script DataFrame :=
  match file with
  | None => stop msg_no_file
  | Some df => if negb (has_col "Date" df) then stop msg_no_date else ret df
  end.

(** Lines 51-52: the options of the province selector and its default. *)
Definition provinsi_list (df : DataFrame) : list string :=
  Python.sorted (unique (dropna_labels (map Province (rows df)))).

Definition default_provinces (df : DataFrame) : list string :=
  firstn 3 (provinsi_list df).

(** Line 55: the bounds, and the defaults, of the two date pickers. *)
Definition min_date (df : DataFrame) : option date :=
  date_min (map Date (rows df)).
Definition max_date (df : DataFrame) : option date :=
  date_max (map Date (rows df)).

(** The widget values of a first run, every widget at its default (lines
    52, 56, 57 and 68), for a frame that has a row. *)
Definition default_controls (df : DataFrame) : option Controls :=
  match min_date df, max_date df with
  | Some lo, Some hi =>
      Some {| provinces := default_provinces df;
              start_date := lo; end_date := hi; show_all := true |}
  | _, _ => None
  end.

(** Lines 59-60. *)
Definition validate_dates (start_date end_date : date) : Script unit :=
  if date_ltb end_date start_date then sidebar_error msg_date_range else ret tt.

(** Lines 63-65. *)
Definition mask_tgl (start_date end_date : date) (r : Row) : bool :=
  date_leb start_date (Date r) && date_leb (Date r) end_date.

Definition mask_prov (provinces : list string) (r : Row) : bool :=
  isin (Province r) provinces.

Definition filtered_df (df : DataFrame) (provinces : list string)
  (start_date end_date : date) : DataFrame :=
  {| columns := columns df;
     rows := filter (fun r => mask_tgl start_date end_date r
                              && mask_prov provinces r) (rows df) |}.

(** Line 73. *)
Definition bar_data `{DateSort} (fdf : DataFrame) (provinces : list string)
  : Series string Z :=
  fillna 0 (reindex None provinces
              (groupby_last TotalCases (sort_values Date (rows fdf)))).

(** Line 88. *)
Definition scat_df `{DateSort} (fdf : DataFrame) (provinces : list string)
  : Series string (Z * Z) :=
  dropna2 (reindex (None, None) provinces
             (groupby_last2 TotalCases TotalDeaths (sort_values Date (rows fdf)))).

(** Line 101. *)
Definition pie_df `{DateSort} (fdf : DataFrame) (provinces : list string)
  : Series string Z :=
  dropna (reindex None provinces
            (groupby_last TotalCases (sort_values Date (rows fdf)))).

(** Line 112. *)
Definition area_df `{DateSort} (fdf : DataFrame) : Series date Z :=
  sort_index (groupby_Date_sum TotalCases (rows fdf)).

(** Line 127. *)
Definition pie_rec_df `{DateSort} (fdf : DataFrame) (provinces : list string)
  : Series string Z :=
  dropna (reindex None provinces
            (groupby_last TotalRecovered (sort_values Date (rows fdf)))).

(** Lines 142-144. *)
Definition cols (fdf : DataFrame) : list NumCol :=
  filter (fun c => has_col (col_name c) fdf)
    [NewCases; NewDeaths; NewRecovered; TotalCases;
     TotalDeaths; TotalRecovered; TotalActiveCases].

Definition corr_df (fdf : DataFrame) : list Row :=
  dropna_rows (cols fdf) (rows fdf).

(** Lines 145-147: the matrix when it is computed, [None] when the block
    is skipped.  [corr_df.empty] holds when the frame has no column or no
    row. *)
Definition heatmap (fdf : DataFrame) : option (list (list (option R))) :=
  if negb (empty (cols fdf) || empty (corr_df fdf))
     && (2 <=? List.length (cols fdf))%nat
  then Some (corr (cols fdf) (corr_df fdf))
  else None.

(** Lines 158-160. *)
Definition cols_show : list string :=
  ["Date"; "Province"; "New Cases"; "New Deaths"; "New Recovered"].

Definition show_df `{DateSort} (fdf : DataFrame) (prov : string)
  : list DetailRow :=
  reset_index
    (sort_values d_Date (map project (filter (province_eq prov) (rows fdf)))).

(** A chart is drawn when its data is not empty. *)
Definition plotted {A : Type} (s : list A) : option (list A) :=
  if empty s then None else Some s.

Record Charts := mkCharts {
  bar_chart : option (Series string Z);
  scatter_chart : option (Series string (Z * Z));
  pie_chart : option (Series string Z);
  area_chart : option (Series date Z);
  recovered_chart : option (Series string Z);
  heatmap_chart : option (list (list (option R)))
}.

(** Lines 70-148.  Selecting a column the frame lacks raises [KeyError];
    the scatter, area and recovered blocks test for their columns first. *)
Definition charts `{DateSort} (fdf : DataFrame) (provinces : list string)
  : Script Charts :=
  require_cols ["Total Cases"] fdf ;;;
  let bar := plotted (bar_data fdf provinces) in
  let scatter :=
    if issubset ["Total Cases"; "Total Deaths"] fdf
    then plotted (scat_df fdf provinces) else None in
  require_cols ["Total Cases"] fdf ;;;
  let pie := plotted (pie_df fdf provinces) in
  let area :=
    if has_col "Total Cases" fdf then plotted (area_df fdf) else None in
  let recovered :=
    if issubset ["Province"; "Total Recovered"] fdf
    then plotted (pie_rec_df fdf provinces) else None in
  ret {| bar_chart := bar; scatter_chart := scatter; pie_chart := pie;
         area_chart := area; recovered_chart := recovered;
         heatmap_chart := heatmap fdf |}.

(** Lines 151-161: one table per selected province, unless the filtered
    frame is empty. *)
Definition data_table `{DateSort} (fdf : DataFrame) (provinces : list string)
  : Script (option (list (string * list DetailRow))) :=
  if negb (df_empty fdf) then
    tabs <- for_each provinces (fun prov =>
              require_cols cols_show fdf ;;; ret (prov, show_df fdf prov)) ;;
    ret (Some tabs)
  else ret None.

Record Page := mkPage {
  view : DataFrame;
  combined : option Charts;
  tables : option (list (string * list DetailRow))
}.

(** The script, top to bottom. *)
Definition session `{DateSort} (file : option DataFrame) (ui : Controls)
  : Script Page :=
  df <- load_data file ;;
  (if negb (has_col "Province" df) then stop msg_no_province else ret tt) ;;;
  require_cols ["Date"] df ;;;
  validate_dates (start_date ui) (end_date ui) ;;;
  let fdf := filtered_df df (provinces ui) (start_date ui) (end_date ui) in
  cs <- (if show_all ui
         then (c <- charts fdf (provinces ui) ;; ret (Some c))
         else ret None) ;;
  ts <- data_table fdf (provinces ui) ;;
  ret {| view := fdf; combined := cs; tables := ts |}.

End App.

(* ================================================================== *)
(** * src/covid19/app.py *)
(* ================================================================== *)

Module Covid19.
Import Pandas Frame Streamlit.
Local Open Scope script_scope.

Definition msg_no_file : string :=
  "File 'covid_19_indonesia_clean.csv' tidak ditemukan.".
Definition msg_no_date : string := "Kolom 'Date' tidak ditemukan.".
Definition msg_no_province : string := "Kolom 'Province' tidak ditemukan di data.".
Definition msg_date_range : string :=
  "'Dari tanggal' tidak boleh melebihi 'Sampai tanggal'.".
Definition msg_no_data : string := "Data tidak tersedia.".
Definition msg_no_data_bar : string :=
  "Data tidak tersedia untuk provinsi terpilih.".
Definition msg_cols_incomplete : string := "Kolom yang dibutuhkan tidak lengkap.".
Definition msg_no_total_cases : string := "Kolom 'Total Cases' tidak ditemukan.".
Definition msg_heatmap : string := "Data tidak cukup untuk heatmap.".

(** [df["year"] = df["Date"].dt.year] (line 32): the frame gains the column
    [year], whose cell in row [r] is [year (Date r)]; nothing reads it. *)
Definition assign_year (df : DataFrame) : DataFrame :=
  {| columns := if has_col "year" df then columns df
                else columns df ++ ["year"];
     rows := rows df |}.

(** [load_data] (lines 24-35): a missing [Date] column is only warned of. *)
Definition load_data (file : option DataFrame) : Script DataFrame :=
  match file with
  | None => stop msg_no_file
  | Some df =>
      if has_col "Date" df then ret (assign_year df)
      else (warning msg_no_date ;;; ret df)
  end.

(** Lines 46-51: the options of the province selector and its default. *)
Definition provinsi_list (df : DataFrame) : list string :=
  Python.sorted (unique (dropna_labels (map Province (rows df)))).

Definition default_provinces (df : DataFrame) : list string :=
  if (3 <=? List.length (provinsi_list df))%nat
  then firstn 3 (provinsi_list df)
  else provinsi_list df.

(** Line 54. *)
Definition min_date (df : DataFrame) : option date :=
  date_min (map Date (rows df)).
Definition max_date (df : DataFrame) : option date :=
  date_max (map Date (rows df)).

(** The widget values of a first run (lines 47-58 and 68). *)
Definition default_controls (df : DataFrame) : option Controls :=
  match min_date df, max_date df with
  | Some lo, Some hi =>
      Some {| provinces := default_provinces df;
              start_date := lo; end_date := hi; show_all := true |}
  | _, _ => None
  end.

(** Lines 59-60. *)
Definition validate_dates (start_date end_date : date) : Script unit :=
  if date_ltb end_date start_date then sidebar_error msg_date_range else ret tt.

(** Lines 63-65. *)
Definition mask_tgl (start_date end_date : date) (r : Row) : bool :=
  date_leb start_date (Date r) && date_leb (Date r) end_date.

Definition mask_prov (provinces : list string) (r : Row) : bool :=
  isin (Province r) provinces.

Definition filtered_df (df : DataFrame) (provinces : list string)
  (start_date end_date : date) : DataFrame :=
  {| columns := columns df;
     rows := filter (fun r => mask_tgl start_date end_date r
                              && mask_prov provinces r) (rows df) |}.

(** Lines 73-79. *)
Definition bar_data `{DateSort} (fdf : DataFrame) (provinces : list string)
  : Series string Z :=
  fillna 0 (reindex None provinces
              (groupby_last TotalCases (sort_values Date (rows fdf)))).

(** Lines 99-105. *)
Definition scat_df `{DateSort} (fdf : DataFrame) (provinces : list string)
  : Series string (Z * Z) :=
  dropna2 (reindex (None, None) provinces
             (groupby_last2 TotalCases TotalDeaths (sort_values Date (rows fdf)))).

(** Lines 123-129. *)
Definition pie_df `{DateSort} (fdf : DataFrame) (provinces : list string)
  : Series string Z :=
  dropna (reindex None provinces
            (groupby_last TotalCases (sort_values Date (rows fdf)))).

(** Lines 141-145. *)
Definition area_df `{DateSort} (fdf : DataFrame) : Series date Z :=
  sort_index (groupby_Date_sum TotalCases (rows fdf)).

(** Lines 165-167: five candidate columns. *)
Definition cols (fdf : DataFrame) : list NumCol :=
  filter (fun c => has_col (col_name c) fdf)
    [NewCases; NewDeaths; TotalCases; TotalDeaths; TotalActiveCases].

Definition corr_df (fdf : DataFrame) : list Row :=
  dropna_rows (cols fdf) (rows fdf).

(** Lines 168-174. *)
Definition heatmap (fdf : DataFrame) : option (list (list (option R))) :=
  if (empty (cols fdf) || empty (corr_df fdf))
     || (List.length (cols fdf) <? 2)%nat
  then None
  else Some (corr (cols fdf) (corr_df fdf)).

(** Lines 187-193. *)
Definition cols_show : list string :=
  ["Date"; "Province"; "New Cases"; "New Deaths"; "New Recovered"].

Definition show_df `{DateSort} (fdf : DataFrame) (prov : string)
  : list DetailRow :=
  reset_index
    (sort_values d_Date (map project (filter (province_eq prov) (rows fdf)))).

(** A chart is drawn when its data is not empty; else a warning is shown. *)
Definition plotted {A : Type} (msg : string) (s : list A)
  : Script (option (list A)) :=
  if empty s then (warning msg ;;; ret None) else ret (Some s).

Record Charts := mkCharts {
  bar_chart : option (Series string Z);
  scatter_chart : option (Series string (Z * Z));
  pie_chart : option (Series string Z);
  area_chart : option (Series date Z);
  heatmap_chart : option (list (list (option R)))
}.

(** Lines 70-174. *)
Definition charts `{DateSort} (fdf : DataFrame) (provinces : list string)
  : Script Charts :=
  require_cols ["Total Cases"] fdf ;;;
  bar <- plotted msg_no_data_bar (bar_data fdf provinces) ;;
  scatter <- (if issubset ["Total Cases"; "Total Deaths"] fdf
              then plotted msg_no_data (scat_df fdf provinces)
              else (warning msg_cols_incomplete ;;; ret None)) ;;
  require_cols ["Total Cases"] fdf ;;;
  pie <- plotted msg_no_data (pie_df fdf provinces) ;;
  area <- (if has_col "Total Cases" fdf
           then plotted msg_no_data (area_df fdf)
           else (warning msg_no_total_cases ;;; ret None)) ;;
  heat <- (match heatmap fdf with
           | None => (warning msg_heatmap ;;; ret None)
           | Some m => ret (Some m)
           end) ;;
  ret {| bar_chart := bar; scatter_chart := scatter; pie_chart := pie;
         area_chart := area; heatmap_chart := heat |}.

(** Lines 177-194. *)
Definition data_table `{DateSort} (fdf : DataFrame) (provinces : list string)
  : Script (option (list (string * list DetailRow))) :=
  if df_empty fdf then (warning msg_no_data ;;; ret None)
  else
    tabs <- for_each provinces (fun prov =>
              require_cols cols_show fdf ;;; ret (prov, show_df fdf prov)) ;;
    ret (Some tabs).

Record Page := mkPage {
  view : DataFrame;
  combined : option Charts;
  tables : option (list (string * list DetailRow))
}.

(** The script, top to bottom.  Line 54 reads [df["Date"]] whether or not
    the loader found the column. *)
Definition session `{DateSort} (file : option DataFrame) (ui : Controls)
  : Script Page :=
  df <- load_data file ;;
  (if negb (has_col "Province" df) then stop msg_no_province else ret tt) ;;;
  require_cols ["Date"] df ;;;
  validate_dates (start_date ui) (end_date ui) ;;;
  let fdf := filtered_df df (provinces ui) (start_date ui) (end_date ui) in
  cs <- (if show_all ui
         then (c <- charts fdf (provinces ui) ;; ret (Some c))
         else ret None) ;;
  ts <- data_table fdf (provinces ui) ;;
  ret {| view := fdf; combined := cs; tables := ts |}.

End Covid19.

(* ================================================================== *)
(** * Vocabulary of the statements *)
(* ================================================================== *)

Definition Row_eq_dec (a b : Row) : {a = b} + {a <> b}.
Proof. repeat decide equality. Defined.

(** The filter criteria, as a proposition on a record. *)
Definition selected (provinces : list string) (start_date end_date : date)
  (r : Row) : Prop :=
  (exists p, Province r = Some p /\ In p provinces)
  /\ date_le start_date (Date r) /\ date_le (Date r) end_date.

(** The last non-null cell of column [c] among the rows of [rs] that
    belong to province [p], in the order of [rs]. *)
Definition group_value (c : NumCol) (rs : list Row) (p : string) : option Z :=
  Pandas.last_valid (map (num c) (filter (Pandas.in_group p) rs)).

(** [v] is the value, in column [c], of the latest record of province [p]
    among those records of [rs] that hold a value in that column. *)
Definition latest_value (c : NumCol) (rs : list Row) (p : string) (v : Z) : Prop :=
  exists r, In r rs /\ Province r = Some p /\ num c r = Some v
            /\ forall r', In r' rs -> Province r' = Some p ->
                          num c r' <> None -> date_le (Date r') (Date r).

(** [v] is the cell, in column [c], of the last row of [rs] that holds a
    value in that column. *)
Definition last_held (c : NumCol) (rs : list Row) (v : Z) : Prop :=
  exists l1 r l2, rs = l1 ++ r :: l2 /\ num c r = Some v
                  /\ forall r', In r' l2 -> num c r' = None.

(** The records of province [p] dated [d], in the order of [rs]. *)
Definition tied (p : string) (d : date) (rs : list Row) : list Row :=
  filter (fun r => date_eqb (Date r) d) (filter (Pandas.in_group p) rs).

(** Column [c] takes two different values among the rows [rs]. *)
Definition varies (c : NumCol) (rs : list Row) : Prop :=
  exists r1 r2 x1 x2, In r1 rs /\ In r2 rs
                      /\ num c r1 = Some x1 /\ num c r2 = Some x2 /\ x1 <> x2.

(** [m] is a square matrix over the columns [cs], symmetric, whose diagonal
    entry for a column is 1 when the column varies over [rs] and NaN when it
    does not. *)
Definition correlation_shape (cs : list NumCol) (rs : list Row)
  (m : list (list (option R))) : Prop :=
  List.length m = List.length cs
  /\ Forall (fun row => List.length row = List.length cs) m
  /\ (forall i j, Pandas.entry m i j = Pandas.entry m j i)
  /\ (forall i c, nth_error cs i = Some c ->
        (varies c rs -> Pandas.entry m i i = Some (Some 1%R))
        /\ (~ varies c rs -> Pandas.entry m i i = Some None)).

(** Helpers for the correlation proofs. *)
Definition swap (o : Z * Z) : Z * Z := (snd o, fst o).
Definition dup (x : Z) : Z * Z := (x, x).

(** The values column [c] holds, in row order. *)
Definition held (c : NumCol) (rs : list Row) : list Z :=
  flat_map (fun r => match num c r with Some x => [x] | None => [] end) rs.

(** The sum of squared deviations of a list of values from [m]. *)
Definition spread (m : Q) (xs : list Z) : Q := Pandas.codeviation m m (map dup xs).

(** The five cells of a detail row, without its index label. *)
Definition cells (r : DetailRow)
  : date * option string * option Z * option Z * option Z :=
  (d_Date r, d_Province r, d_New_Cases r, d_New_Deaths r, d_New_Recovered r).

(** Some record of province [p] in [rs] holds a value in column [c]. *)
Definition holds (c : NumCol) (rs : list Row) (p : string) : bool :=
  existsb (fun r => Pandas.in_group p r && Frame.notna (num c r)) rs.

(** The sum of a list of integers. *)
Definition Zsum (l : list Z) : Z := fold_right Z.add 0 l.


(** 1 for a chart that is left out, 0 for one that is drawn. *)
Definition left_out {A : Type} (chart : option A) : nat :=
  match chart with Some _ => 0%nat | None => 1%nat end.

(* ================================================================== *)
(** * Sample data *)
(* ================================================================== *)

Module Sample.

Definition all_columns : list string :=
  ["Date"; "Province"; "New Cases"; "New Deaths"; "New Recovered";
   "Total Cases"; "Total Deaths"; "Total Recovered"; "Total Active Cases"].

(** A record that carries only totals of cases and deaths. *)
Definition totals (i : nat) (d : date) (p : string) (cases deaths : option Z)
  : Row :=
  mkRow i d (Some p) None None None cases deaths None None.

Definition mar1 : date := mkDate 2020 3 1.
Definition mar2 : date := mkDate 2020 3 2.
Definition mar3 : date := mkDate 2020 3 3.

(** Three days of two provinces, in file order. *)
Definition df : DataFrame :=
  mkDF all_columns
    [ totals 0 mar1 "Aceh" (Some 1) (Some 0);
      totals 1 mar1 "Bali" (Some 4) (Some 1);
      totals 2 mar2 "Aceh" (Some 3) (Some 0);
      totals 3 mar2 "Bali" (Some 9) (Some 2);
      totals 4 mar3 "Bali" (Some 12) (Some 2) ].

(** The same records, shuffled. *)
Definition df_shuffled : DataFrame :=
  mkDF all_columns
    [ totals 4 mar3 "Bali" (Some 12) (Some 2);
      totals 2 mar2 "Aceh" (Some 3) (Some 0);
      totals 1 mar1 "Bali" (Some 4) (Some 1);
      totals 0 mar1 "Aceh" (Some 1) (Some 0);
      totals 3 mar2 "Bali" (Some 9) (Some 2) ].

(** Bali's latest record has no total yet. *)
Definition df_pending : DataFrame :=
  mkDF all_columns
    [ totals 0 mar1 "Bali" (Some 5) (Some 1);
      totals 1 mar2 "Bali" None None ].

End Sample.

Module SampleNull.

(** Bali is in the file, but none of its records holds a figure. *)
Definition df_unreported : DataFrame :=
  mkDF Sample.all_columns
    [ Sample.totals 0 Sample.mar1 "Aceh" (Some 1) (Some 0);
      Sample.totals 1 Sample.mar1 "Bali" None None;
      Sample.totals 2 Sample.mar2 "Bali" None None ].

End SampleNull.

Module SampleTie.

(** Two records of Bali on the same, latest, date, in both file orders. *)
Definition first_report : Row :=
  Sample.totals 0 Sample.mar2 "Bali" (Some 7) (Some 1).
Definition second_report : Row :=
  Sample.totals 1 Sample.mar2 "Bali" (Some 9) (Some 2).
Definition empty_report : Row :=
  Sample.totals 1 Sample.mar2 "Bali" None None.

Definition df_ab : DataFrame :=
  mkDF Sample.all_columns [first_report; second_report].
Definition df_ba : DataFrame :=
  mkDF Sample.all_columns [second_report; first_report].

(** The later row of the two holds no figure. *)
Definition df_a_null : DataFrame :=
  mkDF Sample.all_columns [first_report; empty_report].

End SampleTie.

Module SampleCorr.

(** A record with every figure present. *)
Definition full (i : nat) (d : date) (p : string)
  (nc nd nr tc td tr ta : Z) : Row :=
  mkRow i d (Some p) (Some nc) (Some nd) (Some nr)
        (Some tc) (Some td) (Some tr) (Some ta).

(** Two days without a death: [New Deaths] and [Total Deaths] stay at 0. *)
Definition df_no_deaths : DataFrame :=
  mkDF Sample.all_columns
    [ full 0 Sample.mar1 "Bali" 5 0 1 10 0 1 9;
      full 1 Sample.mar2 "Bali" 7 0 2 17 0 3 14 ].

(** A file that reports recoveries only. *)
Definition df_recovered_only : DataFrame :=
  mkDF ["Date"; "Province"; "New Recovered"; "Total Recovered"]
    [ mkRow 0 Sample.mar1 (Some "Bali") None None (Some 1) None None (Some 1) None;
      mkRow 1 Sample.mar2 (Some "Bali") None None (Some 2) None None (Some 3) None ].

End SampleCorr.

Module SampleRun.




Definition march : Streamlit.Controls :=
  Streamlit.mkControls ["Aceh"; "Bali"] Sample.mar1 Sample.mar3 true.

(** A file without the [Date] column. *)
Definition df_no_date : DataFrame :=
  mkDF ["Province"; "Total Cases"]
    [ Sample.totals 0 Sample.mar1 "Bali" (Some 4) None ].

(** A file without the [Province] column. *)
Definition df_no_province : DataFrame :=
  mkDF ["Date"; "Total Cases"]
    [ mkRow 0 Sample.mar1 None None None None (Some 4) None None None ].

End SampleRun.

(* ================================================================== *)
(** * The order on dates *)
(* ================================================================== *)

(** Case analysis on the three comparisons behind [date_cmp]. *)
Ltac date_cases :=
  unfold date_le, date_lt, date_leb, date_ltb, date_eqb, date_cmp in *;
  simpl in *;
  repeat match goal with
         | |- context [Z.compare ?x ?y] => destruct (Z.compare_spec x y)
         | H : context [Z.compare ?x ?y] |- _ => destruct (Z.compare_spec x y)
         end;
  subst; try congruence; try lia.

Lemma date_le_refl (a : date) : date_le a a.
Proof. destruct a; date_cases. Qed.

Lemma date_le_trans (a b c : date) : date_le a b -> date_le b c -> date_le a c.
Proof. destruct a, b, c; intros H1 H2; date_cases. Qed.

Lemma date_le_antisym (a b : date) : date_le a b -> date_le b a -> a = b.
Proof. destruct a, b; intros H1 H2; date_cases. Qed.

Lemma date_leb_total (a b : date) : date_leb a b = false -> date_le b a.
Proof. destruct a, b; intros H1; date_cases. Qed.

Lemma date_eqb_eq (a b : date) : date_eqb a b = true <-> a = b.
Proof.
  split.
  - destruct a, b; intros H; date_cases.
  - intros ->. destruct b; date_cases.
Qed.

Lemma date_eqb_refl (a : date) : date_eqb a a = true.
Proof. now apply date_eqb_eq. Qed.

Lemma date_ltb_leb (a b : date) : date_ltb a b = negb (date_leb b a).
Proof. destruct a, b; date_cases. Qed.

Lemma date_lt_not_le (a b : date) : date_lt a b -> date_le b a -> False.
Proof.
  unfold date_lt, date_le. rewrite date_ltb_leb. intros H1 H2.
  rewrite H2 in H1. discriminate.
Qed.

(* ================================================================== *)
(** * Insertion sort implements the sorting interface *)
(* ================================================================== *)

Section InsertionSort.
Import Pandas.
Context {A : Type} (key : A -> date).

Let key_le (a b : A) : Prop := date_le (key a) (key b).

Lemma insert_by_perm (x : A) (l : list A) :
  Permutation (x :: l) (insert_by key x l).
Proof.
  induction l as [|y t IH]; simpl.
  - apply Permutation_refl.
  - destruct (date_leb (key x) (key y)).
    + apply Permutation_refl.
    + eapply perm_trans; [apply perm_swap|]. now apply perm_skip.
Qed.

Lemma insertion_sort_perm (l : list A) :
  Permutation l (insertion_sort key l).
Proof.
  induction l as [|x t IH]; simpl.
  - constructor.
  - eapply perm_trans; [|apply insert_by_perm]. now apply perm_skip.
Qed.

Lemma insert_by_sorted (x : A) (l : list A) :
  StronglySorted key_le l -> StronglySorted key_le (insert_by key x l).
Proof.
  induction 1 as [|y t Hs IH Hall]; simpl.
  - repeat constructor.
  - destruct (date_leb (key x) (key y)) eqn:E.
    + constructor; [now constructor|].
      constructor; [exact E|].
      eapply Forall_impl; [|exact Hall].
      intros z Hz. unfold key_le in *. eapply date_le_trans; eauto.
    + constructor; [exact IH|].
      eapply Permutation_Forall; [apply insert_by_perm|].
      constructor; [|exact Hall].
      now apply date_leb_total.
Qed.

Lemma insertion_sort_sorted (l : list A) :
  StronglySorted key_le (insertion_sort key l).
Proof.
  induction l as [|x t IH]; simpl.
  - constructor.
  - now apply insert_by_sorted.
Qed.

Lemma insert_by_stable (d : date) (x : A) (l : list A) :
  filter (fun a => date_eqb (key a) d) (insert_by key x l)
  = filter (fun a => date_eqb (key a) d) (x :: l).
Proof.
  induction l as [|y t IH]; [reflexivity|].
  cbn [insert_by].
  destruct (date_leb (key x) (key y)) eqn:E; [reflexivity|].
  cbn [filter] in *. rewrite IH.
  destruct (date_eqb (key x) d) eqn:Ex; [|reflexivity].
  destruct (date_eqb (key y) d) eqn:Ey; [|reflexivity].
  apply date_eqb_eq in Ex, Ey. rewrite Ex, Ey in E.
  pose proof (date_le_refl d) as Hd. unfold date_le in Hd. congruence.
Qed.

Lemma insertion_sort_stable (d : date) (l : list A) :
  filter (fun a => date_eqb (key a) d) (insertion_sort key l)
  = filter (fun a => date_eqb (key a) d) l.
Proof.
  induction l as [|x t IH]; [reflexivity|].
  cbn [insertion_sort]. rewrite insert_by_stable.
  cbn [filter]. now rewrite IH.
Qed.

Lemma insert_behind_perm (x : A) (l : list A) :
  Permutation (x :: l) (insert_behind key x l).
Proof.
  induction l as [|y t IH]; simpl.
  - apply Permutation_refl.
  - destruct (date_ltb (key x) (key y)).
    + apply Permutation_refl.
    + eapply perm_trans; [apply perm_swap|]. now apply perm_skip.
Qed.

Lemma reversing_sort_perm (l : list A) :
  Permutation l (reversing_sort key l).
Proof.
  induction l as [|x t IH]; simpl.
  - constructor.
  - eapply perm_trans; [|apply insert_behind_perm]. now apply perm_skip.
Qed.

Lemma insert_behind_sorted (x : A) (l : list A) :
  StronglySorted key_le l -> StronglySorted key_le (insert_behind key x l).
Proof.
  induction 1 as [|y t Hs IH Hall]; simpl.
  - repeat constructor.
  - destruct (date_ltb (key x) (key y)) eqn:E.
    + assert (Hxy : key_le x y).
      { unfold key_le. rewrite date_ltb_leb in E.
        apply negb_true_iff in E. now apply date_leb_total. }
      constructor; [now constructor|].
      constructor; [exact Hxy|].
      eapply Forall_impl; [|exact Hall].
      intros z Hz. unfold key_le in *. eapply date_le_trans; eauto.
    + constructor; [exact IH|].
      eapply Permutation_Forall; [apply insert_behind_perm|].
      constructor; [|exact Hall].
      unfold key_le, date_le. rewrite date_ltb_leb in E.
      now apply negb_false_iff in E.
Qed.

Lemma reversing_sort_sorted (l : list A) :
  StronglySorted key_le (reversing_sort key l).
Proof.
  induction l as [|x t IH]; simpl.
  - constructor.
  - now apply insert_behind_sorted.
Qed.

End InsertionSort.

#[export] Instance Insertion : Pandas.DateSort :=
  {| Pandas.sort_values := @Pandas.insertion_sort;
     Pandas.sort_values_perm := @insertion_sort_perm;
     Pandas.sort_values_sorted := @insertion_sort_sorted |}.

#[export] Instance Insertion_stable : Pandas.StableDateSort Insertion :=
  {| Pandas.sort_values_stable :=
       fun A key l d => @insertion_sort_stable A key d l |}.

(** Not exported: a sort within the contract of the interface that is
    not stable. *)
Definition Reversing : Pandas.DateSort :=
  {| Pandas.sort_values := @Pandas.reversing_sort;
     Pandas.sort_values_perm := @reversing_sort_perm;
     Pandas.sort_values_sorted := @reversing_sort_sorted |}.

(* ================================================================== *)
(** * The filter *)
(* ================================================================== *)

Lemma isin_spec (v : option string) (values : list string) :
  Pandas.isin v values = true <-> exists p, v = Some p /\ In p values.
Proof.
  destruct v as [s|]; simpl.
  - rewrite existsb_exists. split.
    + intros (x & Hx & E). apply String.eqb_eq in E. subst. eauto.
    + intros (p & [= ->] & Hp). exists p. split; [exact Hp|apply String.eqb_refl].
  - split; [discriminate|]. intros (p & E & _). discriminate.
Qed.

Lemma mask_spec (provinces : list string) (start_date end_date : date) (r : Row) :
  App.mask_tgl start_date end_date r && App.mask_prov provinces r = true
  <-> selected provinces start_date end_date r.
Proof.
  unfold App.mask_tgl, App.mask_prov, selected, date_le.
  rewrite !andb_true_iff, isin_spec. tauto.
Qed.

Lemma count_occ_filter (f : Row -> bool) (l : list Row) (r : Row) :
  count_occ Row_eq_dec (filter f l) r
  = if f r then count_occ Row_eq_dec l r else 0%nat.
Proof.
  induction l as [|x t IH]; simpl.
  - now destruct (f r).
  - destruct (f x) eqn:Ex; simpl; destruct (Row_eq_dec x r) as [->|Hne];
      rewrite IH; try reflexivity.
    + now rewrite Ex.
    + now rewrite Ex.
Qed.

(** C1.  The Filtered View holds exactly the records of the Dataset whose
    province is one of the selected ones and whose date lies in the
    inclusive interval: a record is in the view iff it is in the Dataset and
    meets both conditions, a record that meets them occurs in the view as
    often as in the Dataset, and one that does not occurs in it not at all.
    Both scripts. *)
Theorem filtered_df_exact (df : DataFrame) (provinces : list string)
  (start_date end_date : date) (r : Row) :
  let fa := App.filtered_df df provinces start_date end_date in
  let fc := Covid19.filtered_df df provinces start_date end_date in
  (In r (rows fa) <->
     In r (rows df) /\ selected provinces start_date end_date r)
  /\ (selected provinces start_date end_date r ->
      count_occ Row_eq_dec (rows fa) r = count_occ Row_eq_dec (rows df) r)
  /\ (~ selected provinces start_date end_date r ->
      count_occ Row_eq_dec (rows fa) r = 0%nat)
  /\ rows fc = rows fa.
Proof.
  cbn zeta. unfold App.filtered_df; cbn [rows].
  split; [split|split; [|split; [|reflexivity]]].
  - intros H. apply filter_In in H. now rewrite mask_spec in H.
  - intros [H1 H2]. apply filter_In. now rewrite mask_spec.
  - intros H. rewrite count_occ_filter.
    apply mask_spec in H. now rewrite H.
  - intros H. rewrite count_occ_filter.
    destruct (App.mask_tgl start_date end_date r && App.mask_prov provinces r)
      eqn:E; [|reflexivity].
    apply mask_spec in E. contradiction.
Qed.

(* ================================================================== *)
(** * Lists: filters, permutations, sorted lists *)
(* ================================================================== *)

Lemma Permutation_filter {A : Type} (f : A -> bool) (l l' : list A) :
  Permutation l l' -> Permutation (filter f l) (filter f l').
Proof.
  induction 1 as [|x l l' _ IH|x y l|l l' l'' _ IH1 _ IH2]; simpl.
  - constructor.
  - destruct (f x); [now constructor|exact IH].
  - destruct (f x), (f y); try apply Permutation_refl. apply perm_swap.
  - eapply perm_trans; eassumption.
Qed.

Lemma StronglySorted_filter {A : Type} (R : A -> A -> Prop) (f : A -> bool)
  (l : list A) :
  StronglySorted R l -> StronglySorted R (filter f l).
Proof.
  induction 1 as [|x t Hs IH Hall]; simpl; [constructor|].
  destruct (f x); [|exact IH].
  constructor; [exact IH|].
  apply Forall_forall. intros y Hy. apply filter_In in Hy.
  rewrite Forall_forall in Hall. now apply Hall.
Qed.

Lemma StronglySorted_after {A : Type} (R : A -> A -> Prop) (l1 l2 : list A)
  (x : A) :
  StronglySorted R (l1 ++ x :: l2) -> Forall (R x) l2.
Proof.
  induction l1 as [|y t IH]; simpl; intros H; apply StronglySorted_inv in H.
  - tauto.
  - apply IH. tauto.
Qed.

Lemma filter_filter_comm {A : Type} (f g : A -> bool) (l : list A) :
  filter f (filter g l) = filter g (filter f l).
Proof.
  induction l as [|x t IH]; [reflexivity|]. simpl.
  destruct (f x) eqn:Ef, (g x) eqn:Eg; simpl;
    rewrite ?Ef, ?Eg, IH; reflexivity.
Qed.

(* ================================================================== *)
(** * groupby(..).last().reindex(..) *)
(* ================================================================== *)

Section Reindex.
Import Pandas.

Lemma last_valid_app (l1 l2 : list (option Z)) :
  last_valid (l1 ++ l2)
  = match last_valid l2 with Some x => Some x | None => last_valid l1 end.
Proof.
  induction l1 as [|v t IH]; simpl.
  - now destruct (last_valid l2).
  - rewrite IH. now destruct (last_valid l2).
Qed.

Lemma last_valid_none (l : list (option Z)) :
  (forall v, In v l -> v = None) -> last_valid l = None.
Proof.
  induction l as [|v t IH]; simpl; intros H; [reflexivity|].
  rewrite IH by auto. apply H. now left.
Qed.

Lemma last_valid_in (l : list (option Z)) (x : Z) :
  last_valid l = Some x -> In (Some x) l.
Proof.
  induction l as [|v t IH]; simpl; [discriminate|].
  destruct (last_valid t) as [y|].
  - intros [= ->]. right. now apply IH.
  - intros ->. now left.
Qed.

Lemma last_valid_some (l : list (option Z)) (x : Z) :
  In (Some x) l -> last_valid l <> None.
Proof.
  intros Hin Hn. induction l as [|v t IH]; simpl in *; [contradiction|].
  destruct (last_valid t) as [y|]; [discriminate|].
  destruct Hin as [->|Hin]; [discriminate|]. now apply IH.
Qed.

Lemma in_group_spec (p : string) (r : Row) :
  in_group p r = true <-> Province r = Some p.
Proof.
  unfold in_group. destruct (Province r) as [q|].
  - rewrite String.eqb_eq. split; congruence.
  - split; discriminate.
Qed.

Lemma group_keys_spec (rs : list Row) (p : string) :
  In p (group_keys rs) <-> exists r, In r rs /\ Province r = Some p.
Proof.
  unfold group_keys. rewrite nodup_In, in_flat_map. split.
  - intros (r & Hr & Hp). exists r. split; [exact Hr|].
    destruct (Province r) as [q|]; simpl in Hp; [|contradiction].
    destruct Hp as [->|[]]. reflexivity.
  - intros (r & Hr & Hp). exists r. split; [exact Hr|].
    rewrite Hp. now left.
Qed.

Lemma loc_tabulate {V : Type} (f : string -> V) (ks : list string) (k : string) :
  loc k (map (fun k' => (k', f k')) ks)
  = if existsb (String.eqb k) ks then Some (f k) else None.
Proof.
  induction ks as [|a t IH]; simpl; [reflexivity|].
  destruct (String.eqb k a) eqn:E; simpl; [|exact IH].
  apply String.eqb_eq in E. now subst.
Qed.

Lemma existsb_eqb_In (k : string) (ks : list string) :
  existsb (String.eqb k) ks = true <-> In k ks.
Proof.
  rewrite existsb_exists. split.
  - intros (x & Hx & E). apply String.eqb_eq in E. now subst.
  - intros H. exists k. split; [exact H|apply String.eqb_refl].
Qed.

Lemma no_key_no_rows (rs : list Row) (p : string) :
  existsb (String.eqb p) (group_keys rs) = false ->
  filter (in_group p) rs = [].
Proof.
  intros E. destruct (filter (in_group p) rs) as [|r t] eqn:F; [reflexivity|].
  assert (Hr : In r (filter (in_group p) rs)) by (rewrite F; now left).
  apply filter_In in Hr. destruct Hr as [Hr Hp]. apply in_group_spec in Hp.
  assert (Hk : In p (group_keys rs)) by (apply group_keys_spec; eauto).
  apply existsb_eqb_In in Hk. congruence.
Qed.

(** Re-indexing the per-province last values by the selected provinces. *)
Lemma reindex_groupby_last (c : NumCol) (rs : list Row) (ps : list string) :
  reindex None ps (groupby_last c rs)
  = map (fun p => (p, group_value c rs p)) ps.
Proof.
  unfold reindex. apply map_ext. intros p. f_equal.
  unfold groupby_last, groupby_Province. rewrite map_map. cbn [fst snd].
  rewrite (loc_tabulate
             (fun k => last_valid (map (num c) (filter (in_group k) rs)))).
  unfold group_value.
  destruct (existsb (String.eqb p) (group_keys rs)) eqn:E; [reflexivity|].
  now rewrite (no_key_no_rows _ _ E).
Qed.

Lemma reindex_groupby_last2 (c1 c2 : NumCol) (rs : list Row) (ps : list string) :
  reindex (None, None) ps (groupby_last2 c1 c2 rs)
  = map (fun p => (p, (group_value c1 rs p, group_value c2 rs p))) ps.
Proof.
  unfold reindex. apply map_ext. intros p. f_equal.
  unfold groupby_last2, groupby_Province. rewrite map_map. cbn [fst snd].
  rewrite (loc_tabulate
             (fun k => (last_valid (map (num c1) (filter (in_group k) rs)),
                        last_valid (map (num c2) (filter (in_group k) rs))))).
  unfold group_value.
  destruct (existsb (String.eqb p) (group_keys rs)) eqn:E; [reflexivity|].
  now rewrite (no_key_no_rows _ _ E).
Qed.

(** Looking a province up after [fillna] and [dropna]. *)
Lemma loc_fillna (f : string -> option Z) (ps : list string) (p : string) (x : Z) :
  In p ps ->
  loc p (fillna x (map (fun k => (k, f k)) ps))
  = Some (match f p with Some v => v | None => x end).
Proof.
  intros Hin. unfold fillna. rewrite map_map. cbn [fst snd].
  rewrite (loc_tabulate (fun k => match f k with Some v => v | None => x end)).
  apply existsb_eqb_In in Hin. now rewrite Hin.
Qed.

Lemma loc_dropna (f : string -> option Z) (ps : list string) (p : string) :
  In p ps ->
  loc p (dropna (map (fun k => (k, f k)) ps)) = f p.
Proof.
  induction ps as [|a t IH]; simpl; [contradiction|].
  intros Hin. destruct (String.eqb p a) eqn:E.
  - apply String.eqb_eq in E. subst a.
    destruct (f p) as [v|] eqn:Ef; simpl.
    + now rewrite String.eqb_refl.
    + clear Hin IH. induction t as [|b t IH]; simpl; [reflexivity|].
      destruct (f b) as [w|] eqn:Eb; simpl; [|exact IH].
      destruct (String.eqb p b) eqn:E; [|exact IH].
      apply String.eqb_eq in E. congruence.
  - destruct Hin as [->|Hin]; [now rewrite String.eqb_refl in E|].
    destruct (f a) as [w|]; simpl; [rewrite E|]; now apply IH.
Qed.

Lemma loc_dropna2 (f : string -> option Z * option Z) (ps : list string)
  (p : string) :
  In p ps ->
  loc p (dropna2 (map (fun k => (k, f k)) ps))
  = match f p with (Some a, Some b) => Some (a, b) | _ => None end.
Proof.
  assert (Hnone : forall t, (match f p with (Some a, Some b) => Some (a, b)
                                          | _ => None end) = None ->
            loc p (dropna2 (map (fun k => (k, f k)) t)) = None).
  { intros t Hf. induction t as [|b t IH]; simpl; [reflexivity|].
    destruct (f b) as [[x|] [y|]] eqn:Eb; simpl; try exact IH.
    destruct (String.eqb p b) eqn:E; [|exact IH].
    apply String.eqb_eq in E. subst b. rewrite Eb in Hf. discriminate. }
  induction ps as [|a t IH]; simpl; [contradiction|].
  intros Hin. destruct (String.eqb p a) eqn:E.
  - apply String.eqb_eq in E. subst a.
    destruct (f p) as [[x|] [y|]] eqn:Ef; simpl;
      try (apply Hnone; reflexivity).
    now rewrite String.eqb_refl.
  - destruct Hin as [->|Hin]; [now rewrite String.eqb_refl in E|].
    destruct (f a) as [[x|] [y|]]; simpl; try rewrite E; now apply IH.
Qed.

Lemma loc_not_in {V : Type} (s : Series string V) (p : string) :
  loc p s = None <-> ~ In p (map fst s).
Proof.
  induction s as [|[k v] t IH]; simpl; [tauto|].
  destruct (String.eqb p k) eqn:E.
  - apply String.eqb_eq in E. subst. split; [discriminate|]. intros H.
    exfalso. apply H. now left.
  - rewrite IH. apply String.eqb_neq in E. split.
    + intros H [H1|H1]; [congruence|contradiction].
    + intros H H1. apply H. now right.
Qed.

End Reindex.

(* ================================================================== *)
(** * Latest value per province *)
(* ================================================================== *)

Section Latest.
Import Pandas.
Context {S : DateSort}.

Let by_date (a b : Row) : Prop := date_le (Date a) (Date b).

Lemma sorted_group_sorted (rs : list Row) (p : string) :
  StronglySorted by_date (filter (in_group p) (sort_values Date rs)).
Proof. apply StronglySorted_filter, sort_values_sorted. Qed.

Lemma sorted_group_perm (rs : list Row) (p : string) :
  Permutation (filter (in_group p) rs)
              (filter (in_group p) (sort_values Date rs)).
Proof. apply Permutation_filter, sort_values_perm. Qed.

Lemma in_sorted_group (rs : list Row) (p : string) (r : Row) :
  In r (filter (in_group p) (sort_values Date rs))
  <-> In r rs /\ Province r = Some p.
Proof.
  rewrite <- in_group_spec, <- filter_In. split; apply Permutation_in.
  - apply Permutation_sym, sorted_group_perm.
  - apply sorted_group_perm.
Qed.

(** With pairwise distinct dates in the province, the last non-null cell of
    the date-sorted group is the latest record's, whatever the sort does. *)
Lemma group_value_latest (c : NumCol) (rs : list Row) (p : string) (v : Z) :
  NoDup (map Date (filter (in_group p) rs)) ->
  latest_value c rs p v ->
  group_value c (sort_values Date rs) p = Some v.
Proof.
  intros Hnd (r & Hr & Hp & Hv & Hmax).
  unfold group_value.
  pose proof (sorted_group_sorted rs p) as Hs.
  pose proof (sorted_group_perm rs p) as Hperm.
  assert (Hin : In r (filter (in_group p) (sort_values Date rs)))
    by (apply in_sorted_group; auto).
  assert (Hnd' : NoDup (map Date (filter (in_group p) (sort_values Date rs)))).
  { eapply Permutation_NoDup; [|exact Hnd]. now apply Permutation_map. }
  assert (Hsub : forall r', In r' (filter (in_group p) (sort_values Date rs)) ->
                            In r' rs /\ Province r' = Some p)
    by (intros r'; apply in_sorted_group).
  destruct (in_split _ _ Hin) as (g1 & g2 & Eg).
  rewrite Eg in Hs, Hnd', Hsub |- *. clear Eg Hin Hperm.
  rewrite map_app, last_valid_app. cbn [map last_valid].
  rewrite last_valid_none; [now rewrite Hv|].
  intros x Hx. apply in_map_iff in Hx. destruct Hx as (r' & <- & Hr').
  destruct (num c r') as [w|] eqn:Ew; [exfalso|reflexivity].
  assert (Hr'g : In r' (g1 ++ r :: g2)) by (apply in_or_app; right; now right).
  destruct (Hsub r' Hr'g) as [Hr'rs Hr'p].
  assert (Hle : date_le (Date r') (Date r))
    by (apply Hmax; [assumption|assumption|congruence]).
  apply StronglySorted_after in Hs. rewrite Forall_forall in Hs.
  assert (Heq : Date r' = Date r)
    by (apply date_le_antisym; [exact Hle|now apply Hs]).
  rewrite map_app in Hnd'. cbn [map] in Hnd'.
  apply NoDup_remove_2 in Hnd'. apply Hnd'.
  apply in_or_app. right. rewrite <- Heq. now apply in_map.
Qed.

(** The same from any reordering of the rows. *)
Lemma group_value_latest_perm (c : NumCol) (rs rs' : list Row) (p : string)
  (v : Z) :
  Permutation rs rs' ->
  NoDup (map Date (filter (in_group p) rs)) ->
  latest_value c rs p v ->
  group_value c (sort_values Date rs') p = Some v.
Proof.
  intros Hperm Hnd (r & Hr & Hp & Hv & Hmax).
  apply group_value_latest.
  - eapply Permutation_NoDup; [|exact Hnd].
    now apply Permutation_map, Permutation_filter.
  - exists r. repeat split; try assumption.
    + eapply Permutation_in; eassumption.
    + intros r' Hr'. apply Hmax.
      eapply Permutation_in; [apply Permutation_sym|]; eassumption.
Qed.

(** A group's value is the cell of one of its records; it is null exactly
    when every record of the province has a null cell. *)
Lemma group_value_some (c : NumCol) (rs : list Row) (p : string) (v : Z) :
  group_value c (sort_values Date rs) p = Some v ->
  exists r, In r rs /\ Province r = Some p /\ num c r = Some v.
Proof.
  unfold group_value. intros H. apply last_valid_in in H.
  apply in_map_iff in H. destruct H as (r & Hv & Hr).
  apply in_sorted_group in Hr. exists r. tauto.
Qed.

Lemma group_value_none (c : NumCol) (rs : list Row) (p : string) :
  group_value c (sort_values Date rs) p = None
  <-> forall r, In r rs -> Province r = Some p -> num c r = None.
Proof.
  unfold group_value. split.
  - intros H r Hr Hp. destruct (num c r) as [v|] eqn:Ev; [exfalso|reflexivity].
    apply (last_valid_some (map (num c) (filter (in_group p) (sort_values Date rs))) v);
      [|exact H].
    apply in_map_iff. exists r. split; [exact Ev|].
    apply in_sorted_group. auto.
  - intros H. apply last_valid_none. intros x Hx.
    apply in_map_iff in Hx. destruct Hx as (r & <- & Hr).
    apply in_sorted_group in Hr. now apply H.
Qed.

(** What the three aggregations hold for a selected province. *)
Lemma bar_data_loc (fdf : DataFrame) (ps : list string) (p : string) :
  In p ps ->
  loc p (App.bar_data fdf ps)
  = Some (match group_value TotalCases (sort_values Date (rows fdf)) p with
          | Some v => v
          | None => 0
          end).
Proof.
  intros Hin. unfold App.bar_data.
  rewrite reindex_groupby_last.
  now rewrite (loc_fillna (group_value TotalCases (sort_values Date (rows fdf)))).
Qed.

Lemma pie_df_loc (fdf : DataFrame) (ps : list string) (p : string) :
  In p ps ->
  loc p (App.pie_df fdf ps)
  = group_value TotalCases (sort_values Date (rows fdf)) p.
Proof.
  intros Hin. unfold App.pie_df.
  rewrite reindex_groupby_last.
  now rewrite (loc_dropna (group_value TotalCases (sort_values Date (rows fdf)))).
Qed.

Lemma scat_df_loc (fdf : DataFrame) (ps : list string) (p : string) :
  In p ps ->
  loc p (App.scat_df fdf ps)
  = match group_value TotalCases (sort_values Date (rows fdf)) p,
          group_value TotalDeaths (sort_values Date (rows fdf)) p with
    | Some a, Some b => Some (a, b)
    | _, _ => None
    end.
Proof.
  intros Hin. unfold App.scat_df.
  rewrite reindex_groupby_last2.
  rewrite (loc_dropna2
             (fun k => (group_value TotalCases (sort_values Date (rows fdf)) k,
                        group_value TotalDeaths (sort_values Date (rows fdf)) k)))
    by exact Hin.
  reflexivity.
Qed.

(** The two scripts run the same three reductions. *)
Lemma Covid19_bar_data (fdf : DataFrame) (ps : list string) :
  Covid19.bar_data fdf ps = App.bar_data fdf ps.
Proof. reflexivity. Qed.

Lemma Covid19_pie_df (fdf : DataFrame) (ps : list string) :
  Covid19.pie_df fdf ps = App.pie_df fdf ps.
Proof. reflexivity. Qed.

Lemma Covid19_scat_df (fdf : DataFrame) (ps : list string) :
  Covid19.scat_df fdf ps = App.scat_df fdf ps.
Proof. reflexivity. Qed.

End Latest.

(** Settles a statement about every element of an explicit list. *)
Ltac each_row H :=
  simpl in H;
  repeat match type of H with
         | _ \/ _ => destruct H as [H|H]
         | False => contradiction
         end;
  subst.

(* ================================================================== *)
(** * Claims on the latest-per-province reductions *)
(* ================================================================== *)

Section LatestClaims.
Import Pandas.
Context {S : DateSort}.

(** C2 (amended).  Let the records of province [p] in the Filtered View have
    pairwise distinct dates.  The bar and pie reductions of both scripts
    return for [p] the total of the latest record that holds a total, and
    the scatter reduction pairs it with the deaths of the latest record that
    holds a deaths figure, whatever the order of the Dataset's rows (the
    view is computed from any reordering [df'] of [df]).  In particular, when
    the record at the maximum date holds a total, that total is returned. *)
Theorem latest_per_region_by_date (df df' : DataFrame) (provinces : list string)
  (start_date end_date : date) (p : string) (v : Z) :
  let fdf := App.filtered_df df provinces start_date end_date in
  let fdf' := App.filtered_df df' provinces start_date end_date in
  let fdc' := Covid19.filtered_df df' provinces start_date end_date in
  Permutation (rows df) (rows df') ->
  In p provinces ->
  NoDup (map Date (filter (in_group p) (rows fdf))) ->
  latest_value TotalCases (rows fdf) p v ->
  (loc p (App.bar_data fdf' provinces) = Some v
   /\ loc p (App.pie_df fdf' provinces) = Some v
   /\ loc p (Covid19.bar_data fdc' provinces) = Some v
   /\ loc p (Covid19.pie_df fdc' provinces) = Some v)
  /\ (forall w, latest_value TotalDeaths (rows fdf) p w ->
        loc p (App.scat_df fdf' provinces) = Some (v, w)
        /\ loc p (Covid19.scat_df fdc' provinces) = Some (v, w))
  /\ (forall r, In r (rows fdf) -> Province r = Some p ->
        (forall r', In r' (rows fdf) -> Province r' = Some p ->
                    date_le (Date r') (Date r)) ->
        Total_Cases r <> None -> Total_Cases r = Some v).
Proof.
  intros fdf fdf' fdc' Hperm Hin Hnd Hv.
  assert (Hp' : Permutation (rows fdf) (rows fdf'))
    by (apply Permutation_filter, Hperm).
  pose proof (group_value_latest_perm TotalCases _ _ p v Hp' Hnd Hv) as Hg.
  assert (Hbar : loc p (App.bar_data fdf' provinces) = Some v)
    by (rewrite bar_data_loc by exact Hin; now rewrite Hg).
  assert (Hpie : loc p (App.pie_df fdf' provinces) = Some v)
    by (rewrite pie_df_loc by exact Hin; exact Hg).
  split; [|split].
  - repeat split; assumption.
  - intros w Hw.
    pose proof (group_value_latest_perm TotalDeaths _ _ p w Hp' Hnd Hw) as Hd.
    assert (Hs : loc p (App.scat_df fdf' provinces) = Some (v, w))
      by (rewrite scat_df_loc by exact Hin; now rewrite Hg, Hd).
    split; exact Hs.
  - intros r Hr Hrp Hmax Hsome.
    destruct (Total_Cases r) as [x|] eqn:Ex; [|congruence].
    assert (Hx : latest_value TotalCases (rows fdf) p x).
    { exists r. repeat split; auto. }
    pose proof (group_value_latest_perm TotalCases _ _ p x Hp' Hnd Hx) as Hg'.
    congruence.
Qed.

End LatestClaims.

(** C2, witness: Bali's latest total in the sample is 12, also when the view
    is computed from the shuffled file. *)
Lemma latest_per_region_by_date_witness :
  Pandas.loc "Bali"
    (@App.bar_data Insertion
       (App.filtered_df Sample.df_shuffled ["Aceh"; "Bali"]
          Sample.mar1 Sample.mar3) ["Aceh"; "Bali"]) = Some 12.
Proof.
  refine (proj1 (proj1 (@latest_per_region_by_date Insertion
            Sample.df Sample.df_shuffled ["Aceh"; "Bali"]
            Sample.mar1 Sample.mar3 "Bali" 12 _ _ _ _))).
  - apply NoDup_Permutation_bis.
    + repeat constructor; simpl; intuition discriminate.
    + simpl; lia.
    + intros r Hr. each_row Hr; simpl; tauto.
  - simpl; tauto.
  - vm_compute. repeat constructor; simpl; intuition discriminate.
  - exists (Sample.totals 4 Sample.mar3 "Bali" (Some 12) (Some 2)).
    repeat split.
    + vm_compute; tauto.
    + intros r' Hr' _ _. vm_compute in Hr'. each_row Hr'; reflexivity.
Defined.

(** C2, as stated, fails: the record of Bali at the maximum date (2 March)
    has a null total, and the reductions return the total of 1 March. *)
Lemma latest_per_region_skips_null :
  let fdf := App.filtered_df Sample.df_pending ["Bali"] Sample.mar1 Sample.mar2 in
  rows fdf = rows Sample.df_pending
  /\ Total_Cases (Sample.totals 1 Sample.mar2 "Bali" None None) = None
  /\ (forall S : Pandas.DateSort,
        Pandas.loc "Bali" (@App.bar_data S fdf ["Bali"]) = Some 5
        /\ Pandas.loc "Bali" (@App.pie_df S fdf ["Bali"]) = Some 5
        /\ Pandas.loc "Bali" (@Covid19.pie_df S fdf ["Bali"]) = Some 5).
Proof.
  cbn zeta. split; [reflexivity|split; [reflexivity|]]. intros S.
  assert (Hg : group_value TotalCases
                 (Pandas.sort_values Date
                    (rows (App.filtered_df Sample.df_pending ["Bali"]
                             Sample.mar1 Sample.mar2))) "Bali" = Some 5).
  { apply group_value_latest.
    - vm_compute. repeat constructor; simpl; intuition discriminate.
    - exists (Sample.totals 0 Sample.mar1 "Bali" (Some 5) (Some 1)).
      repeat split.
      + vm_compute; tauto.
      + intros r' Hr' _ Hv. vm_compute in Hr'. each_row Hr';
          [reflexivity|now elim Hv]. }
  split; [|split].
  - rewrite bar_data_loc by (simpl; tauto). now rewrite Hg.
  - rewrite pie_df_loc by (simpl; tauto). exact Hg.
  - change (Pandas.loc "Bali"
              (App.pie_df (App.filtered_df Sample.df_pending ["Bali"]
                             Sample.mar1 Sample.mar2) ["Bali"]) = Some 5).
    rewrite pie_df_loc by (simpl; tauto). exact Hg.
Qed.

(* ================================================================== *)
(** * Provinces without a value *)
(* ================================================================== *)

Section Missing.
Import Pandas.
Context {S : DateSort}.

Lemma in_labels_loc {V : Type} (s : Series string V) (p : string) :
  In p (map fst s) <-> loc p s <> None.
Proof.
  pose proof (loc_not_in s p) as H.
  destruct (loc p s) as [v|]; split; intros H1.
  - discriminate.
  - destruct (in_dec string_dec p (map fst s)) as [Hin|Hn]; [exact Hin|].
    apply H in Hn. discriminate.
  - exfalso. now apply (proj1 H).
  - congruence.
Qed.

Lemma group_value_held (c : NumCol) (rs : list Row) (p : string) :
  group_value c (sort_values Date rs) p <> None
  <-> exists r, In r rs /\ Province r = Some p /\ num c r <> None.
Proof.
  split.
  - destruct (group_value c (sort_values Date rs) p) as [v|] eqn:E;
      [intros _|congruence].
    destruct (group_value_some _ _ _ _ E) as (r & Hr & Hp & Hv).
    exists r. repeat split; auto. congruence.
  - intros (r & Hr & Hp & Hv) Hn.
    apply Hv. exact (proj1 (group_value_none c rs p) Hn r Hr Hp).
Qed.

(** C3 (amended).  For a selected province [p]:
    - with no record in the Filtered View, the bar reduction gives 0 and the
      scatter and pie reductions have no entry for [p];
    - the pie reduction has an entry for [p] exactly when some record of [p]
      holds a total, and the scatter reduction exactly when some record holds
      a total and some record holds a deaths figure;
    - when some record of [p] holds a total, the bar reduction gives the
      total of one of [p]'s records; when none does, it gives 0. *)
Theorem regions_without_value (fdf : DataFrame) (provinces : list string)
  (p : string) :
  In p provinces ->
  ((forall r, In r (rows fdf) -> Province r <> Some p) ->
     loc p (App.bar_data fdf provinces) = Some 0
     /\ ~ In p (map fst (App.scat_df fdf provinces))
     /\ ~ In p (map fst (App.pie_df fdf provinces)))
  /\ (In p (map fst (App.pie_df fdf provinces)) <->
        exists r, In r (rows fdf) /\ Province r = Some p
                  /\ Total_Cases r <> None)
  /\ (In p (map fst (App.scat_df fdf provinces)) <->
        (exists r, In r (rows fdf) /\ Province r = Some p
                   /\ Total_Cases r <> None)
        /\ (exists r, In r (rows fdf) /\ Province r = Some p
                      /\ Total_Deaths r <> None))
  /\ ((exists r, In r (rows fdf) /\ Province r = Some p
                 /\ Total_Cases r <> None) ->
        exists r v, In r (rows fdf) /\ Province r = Some p
                    /\ Total_Cases r = Some v
                    /\ loc p (App.bar_data fdf provinces) = Some v)
  /\ ((forall r, In r (rows fdf) -> Province r = Some p ->
                 Total_Cases r = None) ->
        loc p (App.bar_data fdf provinces) = Some 0).
Proof.
  intros Hin.
  assert (Hpie : In p (map fst (App.pie_df fdf provinces)) <->
                 exists r, In r (rows fdf) /\ Province r = Some p
                           /\ Total_Cases r <> None).
  { rewrite in_labels_loc, pie_df_loc by exact Hin.
    apply (group_value_held TotalCases). }
  assert (Hscat : In p (map fst (App.scat_df fdf provinces)) <->
            (exists r, In r (rows fdf) /\ Province r = Some p
                       /\ Total_Cases r <> None)
            /\ (exists r, In r (rows fdf) /\ Province r = Some p
                          /\ Total_Deaths r <> None)).
  { rewrite in_labels_loc, scat_df_loc by exact Hin.
    rewrite <- (group_value_held TotalCases), <- (group_value_held TotalDeaths).
    destruct (group_value TotalCases (sort_values Date (rows fdf)) p),
             (group_value TotalDeaths (sort_values Date (rows fdf)) p);
      split; try (intros [H1 H2]); try intros H; try congruence;
      try (split; congruence). }
  assert (Hzero : (forall r, In r (rows fdf) -> Province r = Some p ->
                             Total_Cases r = None) ->
                  loc p (App.bar_data fdf provinces) = Some 0).
  { intros Hnone. rewrite bar_data_loc by exact Hin.
    now rewrite (proj2 (group_value_none TotalCases (rows fdf) p) Hnone). }
  split; [|split; [exact Hpie|split; [exact Hscat|split; [|exact Hzero]]]].
  - intros Hno. split; [|split].
    + apply Hzero. intros r Hr Hp. now elim (Hno r Hr).
    + rewrite Hscat. intros [(r & Hr & Hp & _) _]. now apply (Hno r Hr).
    + rewrite Hpie. intros (r & Hr & Hp & _). now apply (Hno r Hr).
  - intros Hex. apply (group_value_held TotalCases) in Hex.
    destruct (group_value TotalCases (sort_values Date (rows fdf)) p)
      as [v|] eqn:E; [|congruence].
    destruct (group_value_some _ _ _ _ E) as (r & Hr & Hp & Hv).
    exists r, v. repeat split; auto.
    rewrite bar_data_loc by exact Hin. now rewrite E.
Qed.

End Missing.

(** C3, witness: on 3 March alone the sample has no record of Aceh. *)
Lemma regions_without_value_witness :
  let ps := ["Aceh"; "Bali"] in
  let fdf := App.filtered_df Sample.df ps Sample.mar3 Sample.mar3 in
  Pandas.loc "Aceh" (@App.bar_data Insertion fdf ps) = Some 0
  /\ ~ In "Aceh" (map fst (@App.scat_df Insertion fdf ps))
  /\ ~ In "Aceh" (map fst (@App.pie_df Insertion fdf ps)).
Proof.
  cbn zeta.
  refine (proj1 (@regions_without_value Insertion
            (App.filtered_df Sample.df ["Aceh"; "Bali"]
               Sample.mar3 Sample.mar3)
            ["Aceh"; "Bali"] "Aceh" _) _).
  - simpl; tauto.
  - intros r Hr. vm_compute in Hr. each_row Hr; discriminate.
Defined.

(** C3, as stated, fails: Bali has two records in the Filtered View, and
    yet the bar reduction fills it with 0 and the pie and scatter reductions
    drop it. *)
Lemma region_with_records_dropped :
  let ps := ["Aceh"; "Bali"] in
  let fdf := App.filtered_df SampleNull.df_unreported ps Sample.mar1 Sample.mar2 in
  In (Sample.totals 1 Sample.mar1 "Bali" None None) (rows fdf)
  /\ (forall S : Pandas.DateSort,
        Pandas.loc "Bali" (@App.bar_data S fdf ps) = Some 0
        /\ ~ In "Bali" (map fst (@App.pie_df S fdf ps))
        /\ ~ In "Bali" (map fst (@App.scat_df S fdf ps))).
Proof.
  cbn zeta. split; [vm_compute; tauto|]. intros S.
  assert (Hin : In "Bali" ["Aceh"; "Bali"]) by (simpl; tauto).
  assert (Hnone : forall c, c = TotalCases \/ c = TotalDeaths ->
            group_value c
              (Pandas.sort_values Date
                 (rows (App.filtered_df SampleNull.df_unreported ["Aceh"; "Bali"]
                          Sample.mar1 Sample.mar2))) "Bali" = None).
  { intros c Hc. apply group_value_none. intros r Hr Hp.
    vm_compute in Hr. each_row Hr; try discriminate;
      destruct Hc; subst; reflexivity. }
  split; [|split].
  - rewrite bar_data_loc by exact Hin. now rewrite Hnone by auto.
  - rewrite in_labels_loc, pie_df_loc by exact Hin.
    rewrite Hnone by auto. congruence.
  - rewrite in_labels_loc, scat_df_loc by exact Hin.
    rewrite !Hnone by auto. congruence.
Qed.

(* ================================================================== *)
(** * Records that share the latest date *)
(* ================================================================== *)

Section Ties.
Import Pandas.

Lemma last_held_valid (c : NumCol) (rs : list Row) (v : Z) :
  last_held c rs v -> last_valid (map (num c) rs) = Some v.
Proof.
  intros (l1 & r & l2 & -> & Hv & Hnone).
  rewrite map_app, last_valid_app. cbn [map last_valid].
  rewrite last_valid_none; [now rewrite Hv|].
  intros x Hx. apply in_map_iff in Hx. destruct Hx as (r' & <- & Hr').
  now apply Hnone.
Qed.

(** In a list sorted by date in which no held value is dated after [d], the
    last held value is the last one held on date [d], if there is one. *)
Lemma last_valid_at_date (f : Row -> option Z) (d : date) (g : list Row) :
  StronglySorted (fun a b => date_le (Date a) (Date b)) g ->
  (forall x, In x g -> f x <> None -> date_le (Date x) d) ->
  last_valid (map f (filter (fun x => date_eqb (Date x) d) g)) <> None ->
  last_valid (map f g)
  = last_valid (map f (filter (fun x => date_eqb (Date x) d) g)).
Proof.
  induction 1 as [|x t Hs IH Hall]; intros Hmax Hsome; [reflexivity|].
  cbn [map last_valid filter] in *.
  destruct (last_valid (map f (filter (fun y => date_eqb (Date y) d) t)))
    as [y|] eqn:Et.
  - rewrite IH; [|intros z Hz; apply Hmax; now right|congruence].
    destruct (date_eqb (Date x) d); cbn [map last_valid]; now rewrite Et.
  - destruct (date_eqb (Date x) d) eqn:Ex;
      cbn [map last_valid] in *; rewrite Et in *; [|congruence].
    apply date_eqb_eq in Ex.
    rewrite last_valid_none; [reflexivity|].
    intros v Hv. apply in_map_iff in Hv. destruct Hv as (z & <- & Hz).
    destruct (f z) as [w|] eqn:Ez; [exfalso|reflexivity].
    assert (Hzd : Date z = d).
    { apply date_le_antisym.
      - apply Hmax; [now right|congruence].
      - rewrite <- Ex. rewrite Forall_forall in Hall. now apply Hall. }
    apply (last_valid_some
             (map f (filter (fun y => date_eqb (Date y) d) t)) w); [|exact Et].
    apply in_map_iff. exists z. split; [exact Ez|].
    apply filter_In. split; [exact Hz|now apply date_eqb_eq].
Qed.

(** Whatever the sort, the value of a group is held by one of its records
    on the latest date on which any of them holds one. *)
Lemma group_value_on_date {S : DateSort} (c : NumCol) (rs : list Row)
  (p : string) (d : date) :
  (forall r, In r rs -> Province r = Some p -> num c r <> None ->
             date_le (Date r) d) ->
  (exists r, In r (tied p d rs) /\ num c r <> None) ->
  exists r v, In r (tied p d rs) /\ num c r = Some v
              /\ group_value c (sort_values Date rs) p = Some v.
Proof.
  intros Hmax (r0 & Hr0 & Hv0).
  assert (Hperm : Permutation (tied p d rs)
            (filter (fun x => date_eqb (Date x) d)
                    (filter (in_group p) (sort_values Date rs)))).
  { unfold tied. apply Permutation_filter, Permutation_filter,
      sort_values_perm. }
  assert (Hsome : last_valid
            (map (num c)
               (filter (fun x => date_eqb (Date x) d)
                  (filter (in_group p) (sort_values Date rs)))) <> None).
  { destruct (num c r0) as [v0|] eqn:E0; [|congruence].
    apply (last_valid_some _ v0). apply in_map_iff. exists r0.
    split; [exact E0|]. eapply Permutation_in; eassumption. }
  unfold group_value.
  rewrite (last_valid_at_date (num c) d).
  - destruct (last_valid _) as [v|] eqn:E; [|congruence].
    apply last_valid_in, in_map_iff in E. destruct E as (r & Hv & Hr).
    exists r, v. repeat split; auto.
    eapply Permutation_in; [apply Permutation_sym|]; eassumption.
  - apply sorted_group_sorted.
  - intros x Hx. apply in_sorted_group in Hx. destruct Hx. now apply Hmax.
  - exact Hsome.
Qed.

Context {S : DateSort} {stable : StableDateSort S}.

(** Under a stable sort the value of a group is the last value its records
    hold on the latest date on which any of them holds one, in row order. *)
Lemma group_value_tied (c : NumCol) (rs : list Row) (p : string) (d : date)
  (v : Z) :
  (forall r, In r rs -> Province r = Some p -> num c r <> None ->
             date_le (Date r) d) ->
  last_held c (tied p d rs) v ->
  group_value c (sort_values Date rs) p = Some v.
Proof.
  intros Hmax Hheld. apply last_held_valid in Hheld.
  assert (Et : filter (fun x => date_eqb (Date x) d)
                 (filter (in_group p) (sort_values Date rs)) = tied p d rs).
  { unfold tied. rewrite filter_filter_comm, sort_values_stable.
    apply filter_filter_comm. }
  unfold group_value.
  rewrite (last_valid_at_date (num c) d).
  - now rewrite Et.
  - apply sorted_group_sorted.
  - intros x Hx. apply in_sorted_group in Hx. destruct Hx. now apply Hmax.
  - rewrite Et. congruence.
Qed.

End Ties.

(** C10 (amended).  Let [d] be a date that no record of province [p]
    holding a total exceeds, and on which some record of [p] in the Filtered
    View holds one -- the maximum date, when a record on it holds a total.
    Whatever the sort, the bar and pie reductions of both scripts return
    the total of one of [p]'s records dated [d].  When the sort by date is
    stable, it is the total of the record that comes last in row order among
    those of them that hold a total (the scatter reduction does so column
    by column), so that the result depends on row order: swapping the two
    tied records of the sample changes it. *)
Theorem latest_among_tied (df : DataFrame) (provinces : list string)
  (start_date end_date : date) (p : string) (d : date) :
  let fdf := App.filtered_df df provinces start_date end_date in
  let fdc := Covid19.filtered_df df provinces start_date end_date in
  In p provinces ->
  (forall r, In r (rows fdf) -> Province r = Some p ->
             Total_Cases r <> None -> date_le (Date r) d) ->
  (forall S : Pandas.DateSort,
      (exists r, In r (tied p d (rows fdf)) /\ Total_Cases r <> None) ->
      exists r v,
        In r (tied p d (rows fdf)) /\ Total_Cases r = Some v
        /\ Pandas.loc p (@App.bar_data S fdf provinces) = Some v
        /\ Pandas.loc p (@App.pie_df S fdf provinces) = Some v
        /\ Pandas.loc p (@Covid19.bar_data S fdc provinces) = Some v
        /\ Pandas.loc p (@Covid19.pie_df S fdc provinces) = Some v)
  /\ (forall (S : Pandas.DateSort) (stable : Pandas.StableDateSort S) (v : Z),
        last_held TotalCases (tied p d (rows fdf)) v ->
        (Pandas.loc p (@App.bar_data S fdf provinces) = Some v
         /\ Pandas.loc p (@App.pie_df S fdf provinces) = Some v
         /\ Pandas.loc p (@Covid19.bar_data S fdc provinces) = Some v
         /\ Pandas.loc p (@Covid19.pie_df S fdc provinces) = Some v)
        /\ (forall w,
              (forall r, In r (rows fdf) -> Province r = Some p ->
                         Total_Deaths r <> None -> date_le (Date r) d) ->
              last_held TotalDeaths (tied p d (rows fdf)) w ->
              Pandas.loc p (@App.scat_df S fdf provinces) = Some (v, w)
              /\ Pandas.loc p (@Covid19.scat_df S fdc provinces) = Some (v, w)))
  /\ (forall (S : Pandas.DateSort) (stable : Pandas.StableDateSort S),
        Pandas.loc "Bali" (@App.bar_data S SampleTie.df_ab ["Bali"]) = Some 9
        /\ Pandas.loc "Bali" (@App.bar_data S SampleTie.df_ba ["Bali"]) = Some 7).
Proof.
  intros fdf fdc Hin Hmax. split; [|split].
  - intros S Hex.
    destruct (group_value_on_date TotalCases _ p d Hmax Hex)
      as (r & v & Hr & Hv & Hg).
    exists r, v.
    assert (Hbar : Pandas.loc p (App.bar_data fdf provinces) = Some v)
      by (rewrite bar_data_loc by exact Hin; now rewrite Hg).
    assert (Hpie : Pandas.loc p (App.pie_df fdf provinces) = Some v)
      by (rewrite pie_df_loc by exact Hin; exact Hg).
    repeat split; assumption.
  - intros S stable v Hheld.
    pose proof (group_value_tied TotalCases _ p d v Hmax Hheld) as Hg.
    assert (Hbar : Pandas.loc p (App.bar_data fdf provinces) = Some v)
      by (rewrite bar_data_loc by exact Hin; now rewrite Hg).
    assert (Hpie : Pandas.loc p (App.pie_df fdf provinces) = Some v)
      by (rewrite pie_df_loc by exact Hin; exact Hg).
    split; [repeat split; assumption|].
    intros w Hmaxd Hheldd.
    pose proof (group_value_tied TotalDeaths _ p d w Hmaxd Hheldd) as Hd.
    assert (Hs : Pandas.loc p (App.scat_df fdf provinces) = Some (v, w))
      by (rewrite scat_df_loc by (exact Hin); now rewrite Hg, Hd).
    split; exact Hs.
  - intros S stable.
    assert (HB : In "Bali" ["Bali"]) by (simpl; tauto).
    split; rewrite bar_data_loc by exact HB.
    + rewrite (group_value_tied TotalCases _ "Bali" Sample.mar2 9);
        [reflexivity| |].
      * intros r Hr _ _. each_row Hr; reflexivity.
      * exists [SampleTie.first_report], SampleTie.second_report, [].
        repeat split. intros r' [].
    + rewrite (group_value_tied TotalCases _ "Bali" Sample.mar2 7);
        [reflexivity| |].
      * intros r Hr _ _. each_row Hr; reflexivity.
      * exists [SampleTie.second_report], SampleTie.first_report, [].
        repeat split. intros r' [].
Qed.

(** C10, witness: of Bali's two records of 2 March the later row wins under
    the stable sort. *)
Lemma latest_among_tied_witness :
  Pandas.loc "Bali"
    (@App.pie_df Insertion
       (App.filtered_df SampleTie.df_ab ["Bali"] Sample.mar2 Sample.mar2)
       ["Bali"]) = Some 9.
Proof.
  refine (proj1 (proj2 (proj1 (proj1 (proj2
            (@latest_among_tied SampleTie.df_ab ["Bali"]
               Sample.mar2 Sample.mar2 "Bali" Sample.mar2 _ _))
            Insertion Insertion_stable 9 _)))).
  - simpl; tauto.
  - intros r Hr _ _. vm_compute in Hr. each_row Hr; reflexivity.
  - exists [SampleTie.first_report], SampleTie.second_report, [].
    repeat split. intros r' [].
Defined.

(** The contract of the sort alone does not settle ties: a sort within it
    returns the total of the earlier row. *)
Example tie_broken_the_other_way :
  Pandas.loc "Bali" (@App.bar_data Reversing SampleTie.df_ab ["Bali"]) = Some 7
  /\ Pandas.loc "Bali" (@App.bar_data Insertion SampleTie.df_ab ["Bali"]) = Some 9.
Proof. split; reflexivity. Qed.

(** A province whose held totals all equal [v] gets [v] from any sort. *)
Lemma group_value_unique {S : Pandas.DateSort} (c : NumCol) (rs : list Row)
  (p : string) (v : Z) :
  (exists r, In r rs /\ Province r = Some p /\ num c r = Some v) ->
  (forall r x, In r rs -> Province r = Some p -> num c r = Some x -> x = v) ->
  group_value c (Pandas.sort_values Date rs) p = Some v.
Proof.
  intros (r & Hr & Hp & Hv) Hall.
  destruct (group_value c (Pandas.sort_values Date rs) p) as [x|] eqn:E.
  - destruct (group_value_some _ _ _ _ E) as (r' & Hr' & Hp' & Hv').
    f_equal. eapply Hall; eassumption.
  - exfalso. pose proof (proj1 (group_value_none c rs p) E r Hr Hp).
    congruence.
Qed.

(** C10, as stated, fails: of Bali's two records on the maximum date the
    one that comes last in row order holds no total, and the reductions
    return the total of the other one, 7, whatever the sort. *)
Lemma tied_last_row_null :
  let fdf := App.filtered_df SampleTie.df_a_null ["Bali"]
               Sample.mar2 Sample.mar2 in
  rows fdf = [SampleTie.first_report; SampleTie.empty_report]
  /\ Date SampleTie.first_report = Date SampleTie.empty_report
  /\ Total_Cases SampleTie.empty_report = None
  /\ (forall S : Pandas.DateSort,
        Pandas.loc "Bali" (@App.bar_data S fdf ["Bali"]) = Some 7
        /\ Pandas.loc "Bali" (@App.pie_df S fdf ["Bali"]) = Some 7).
Proof.
  cbn zeta. split; [reflexivity|split; [reflexivity|split; [reflexivity|]]].
  intros S.
  assert (HB : In "Bali" ["Bali"]) by (simpl; tauto).
  assert (Hg : group_value TotalCases
                 (Pandas.sort_values Date
                    (rows (App.filtered_df SampleTie.df_a_null ["Bali"]
                             Sample.mar2 Sample.mar2))) "Bali" = Some 7).
  { apply group_value_unique.
    - exists SampleTie.first_report. vm_compute. tauto.
    - intros r x Hr _ Hx. vm_compute in Hr. each_row Hr;
        vm_compute in Hx; congruence. }
  split.
  - rewrite bar_data_loc by exact HB. now rewrite Hg.
  - rewrite pie_df_loc by exact HB. exact Hg.
Qed.

(* ================================================================== *)
(** * The correlation matrix *)
(* ================================================================== *)

Section Correlation.
Import Pandas.

Lemma Qmult_comm_eq (a b : Q) : (a * b)%Q = (b * a)%Q.
Proof. unfold Qmult. f_equal; [apply Z.mul_comm|apply Pos.mul_comm]. Qed.

Lemma observations_swap (ci cj : NumCol) (rs : list Row) :
  observations cj ci rs = map swap (observations ci cj rs).
Proof.
  unfold observations. induction rs as [|r t IH]; [reflexivity|].
  cbn [flat_map]. rewrite map_app, <- IH.
  now destruct (num ci r), (num cj r).
Qed.

Lemma observations_diag (c : NumCol) (rs : list Row) :
  observations c c rs = map dup (held c rs).
Proof.
  unfold observations, held. induction rs as [|r t IH]; [reflexivity|].
  cbn [flat_map]. rewrite map_app, <- IH.
  now destruct (num c r).
Qed.

Lemma held_spec (c : NumCol) (rs : list Row) (x : Z) :
  In x (held c rs) <-> exists r, In r rs /\ num c r = Some x.
Proof.
  unfold held. rewrite in_flat_map. split; intros (r & Hr & Hx); exists r;
    (split; [exact Hr|]).
  - destruct (num c r) as [y|]; simpl in Hx; [|contradiction].
    destruct Hx as [->|[]]. reflexivity.
  - rewrite Hx. now left.
Qed.

Lemma codeviation_swap (mx my : Q) (obs : list (Z * Z)) :
  codeviation my mx (map swap obs) = codeviation mx my obs.
Proof.
  unfold codeviation. induction obs as [|o t IH]; [reflexivity|].
  cbn [map Qsum fold_right] in *. unfold Qsum in IH. rewrite IH.
  f_equal. apply Qmult_comm_eq.
Qed.

Lemma pearson_swap (obs : list (Z * Z)) : pearson (map swap obs) = pearson obs.
Proof.
  unfold pearson.
  assert (E0 : empty (map swap obs) = empty obs) by (now destruct obs).
  assert (E1 : map fst (map swap obs) = map snd obs)
    by (now rewrite map_map).
  assert (E2 : map snd (map swap obs) = map fst obs)
    by (now rewrite map_map).
  assert (E3 : map (fun p => (fst p, fst p)) (map swap obs)
               = map (fun p => (snd p, snd p)) obs)
    by (now rewrite map_map).
  assert (E4 : map (fun p => (snd p, snd p)) (map swap obs)
               = map (fun p => (fst p, fst p)) obs)
    by (now rewrite map_map).
  rewrite E0, E1, E2, E3, E4, codeviation_swap. cbv zeta.
  now rewrite (Qmult_comm_eq
                 (codeviation (mean (map snd obs)) (mean (map snd obs))
                    (map (fun p => (snd p, snd p)) obs))).
Qed.

Lemma pearson_dup (xs : list Z) :
  pearson (map dup xs)
  = if empty xs then None
    else if Qeq_bool (spread (mean xs) xs * spread (mean xs) xs) 0 then None
         else Some (Q2R (spread (mean xs) xs)
                    / sqrt (Q2R (spread (mean xs) xs * spread (mean xs) xs)))%R.
Proof.
  unfold pearson, spread.
  assert (E0 : empty (map dup xs) = empty xs) by (now destruct xs).
  assert (E1 : map fst (map dup xs) = xs)
    by (rewrite map_map; apply map_id).
  assert (E2 : map snd (map dup xs) = xs)
    by (rewrite map_map; apply map_id).
  assert (E3 : map (fun p => (fst p, fst p)) (map dup xs) = map dup xs)
    by (now rewrite map_map).
  assert (E4 : map (fun p => (snd p, snd p)) (map dup xs) = map dup xs)
    by (now rewrite map_map).
  now rewrite E0, E1, E2, E3, E4.
Qed.

Lemma spread_cons (m : Q) (x : Z) (xs : list Z) :
  spread m (x :: xs)
  = ((inject_Z x - m) * (inject_Z x - m) + spread m xs)%Q.
Proof. reflexivity. Qed.

Lemma Qsquare_nonneg (a : Q) : (0 <= a * a)%Q.
Proof. nra. Qed.

Lemma Qsquare_zero (a : Q) : (a * a == 0)%Q -> (a == 0)%Q.
Proof. nra. Qed.

Lemma spread_nonneg (m : Q) (xs : list Z) : (0 <= spread m xs)%Q.
Proof.
  induction xs as [|x t IH]; [unfold spread, codeviation; simpl; lra|].
  rewrite spread_cons. pose proof (Qsquare_nonneg (inject_Z x - m)). lra.
Qed.

Lemma spread_zero (m : Q) (xs : list Z) :
  (spread m xs == 0)%Q <-> forall x, In x xs -> (inject_Z x == m)%Q.
Proof.
  induction xs as [|x t IH].
  - split; [intros _ y []|intros _; reflexivity].
  - rewrite spread_cons. pose proof (spread_nonneg m t) as Hpos. split.
    + intros H. pose proof (Qsquare_nonneg (inject_Z x - m)) as Hsq.
      intros y [<-|Hy].
      * assert (E : ((inject_Z x - m) * (inject_Z x - m) == 0)%Q) by lra.
        apply Qsquare_zero in E. lra.
      * apply IH; [lra|exact Hy].
    + intros H.
      assert (H1 : (inject_Z x == m)%Q) by (apply H; now left).
      assert (H2 : (spread m t == 0)%Q) by (apply IH; intros y Hy; apply H; now right).
      rewrite H1, H2. ring.
Qed.

Lemma Qsum_const (a : Z) (xs : list Z) :
  (forall x, In x xs -> x = a) ->
  (Qsum (map inject_Z xs) == inject_Z a * inject_Z (Z.of_nat (List.length xs)))%Q.
Proof.
  induction xs as [|x t IH]; intros H.
  - simpl. ring.
  - cbn [map Qsum fold_right List.length]. unfold Qsum in IH.
    rewrite IH by (intros y Hy; apply H; now right).
    rewrite (H x) by now left.
    rewrite Nat2Z.inj_succ. unfold Z.succ. rewrite inject_Z_plus. ring.
Qed.

Lemma mean_const (a : Z) (xs : list Z) :
  xs <> [] -> (forall x, In x xs -> x = a) -> (mean xs == inject_Z a)%Q.
Proof.
  intros Hne H. unfold mean. rewrite (Qsum_const a xs H).
  assert (Hn : ~ (inject_Z (Z.of_nat (List.length xs)) == 0)%Q).
  { destruct xs as [|x t]; [congruence|].
    unfold Qeq. simpl. lia. }
  field. exact Hn.
Qed.

Lemma unit_ratio (s : Q) :
  (0 <= s)%Q -> ~ (s == 0)%Q -> (Q2R s / sqrt (Q2R (s * s)))%R = 1%R.
Proof.
  intros Hpos Hnz.
  assert (H0 : (0 <= Q2R s)%R).
  { apply Qreals.Qle_Rle in Hpos. now rewrite RMicromega.Q2R_0 in Hpos. }
  assert (H1 : Q2R s <> 0%R).
  { intros E. apply Hnz. apply Qreals.eqR_Qeq.
    now rewrite RMicromega.Q2R_0. }
  rewrite Qreals.Q2R_mult, sqrt_square by exact H0.
  now field.
Qed.

(** A column that varies correlates with itself at 1. *)
Lemma pearson_diag_varies (xs : list Z) (x1 x2 : Z) :
  In x1 xs -> In x2 xs -> x1 <> x2 -> pearson (map dup xs) = Some 1%R.
Proof.
  intros H1 H2 Hne. rewrite pearson_dup.
  destruct xs as [|x t]; [contradiction|]. cbn [empty].
  assert (Hnz : ~ (spread (mean (x :: t)) (x :: t) == 0)%Q).
  { intros Hz. apply Hne.
    pose proof (proj1 (spread_zero _ _) Hz x1 H1) as E1.
    pose proof (proj1 (spread_zero _ _) Hz x2 H2) as E2.
    rewrite <- E2 in E1. unfold Qeq in E1. simpl in E1. lia. }
  pose proof (spread_nonneg (mean (x :: t)) (x :: t)) as Hpos.
  destruct (Qeq_bool _ 0) eqn:E.
  - apply Qeq_bool_eq in E. exfalso. apply Hnz. now apply Qsquare_zero.
  - f_equal. now apply unit_ratio.
Qed.

(** A column that does not vary has no correlation with itself. *)
Lemma pearson_diag_const (xs : list Z) :
  (forall x1 x2, In x1 xs -> In x2 xs -> x1 = x2) ->
  pearson (map dup xs) = None.
Proof.
  intros Hc. rewrite pearson_dup.
  destruct xs as [|x t]; [reflexivity|]. cbn [empty].
  assert (Hall : forall y, In y (x :: t) -> y = x)
    by (intros y Hy; apply Hc; [exact Hy|now left]).
  assert (Hz : (spread (mean (x :: t)) (x :: t) == 0)%Q).
  { apply spread_zero. intros y Hy. rewrite (Hall y Hy).
    symmetry. apply mean_const; [discriminate|exact Hall]. }
  rewrite (Qeq_eq_bool _ 0); [reflexivity|]. rewrite Hz. ring.
Qed.

Lemma entry_corr (cs : list NumCol) (rs : list Row) (i j : nat) :
  entry (corr cs rs) i j
  = match nth_error cs i, nth_error cs j with
    | Some ci, Some cj => Some (pearson (observations ci cj rs))
    | _, _ => None
    end.
Proof.
  unfold entry, corr. rewrite nth_error_map.
  destruct (nth_error cs i) as [ci|]; [|reflexivity]. cbn [option_map].
  rewrite nth_error_map. now destruct (nth_error cs j).
Qed.

Lemma corr_shape (cs : list NumCol) (rs : list Row) :
  correlation_shape cs rs (corr cs rs).
Proof.
  unfold correlation_shape. split; [|split; [|split]].
  - unfold corr. apply length_map.
  - unfold corr. apply Forall_forall. intros row Hrow.
    apply in_map_iff in Hrow. destruct Hrow as (c & <- & _). apply length_map.
  - intros i j. rewrite !entry_corr.
    destruct (nth_error cs i) as [ci|], (nth_error cs j) as [cj|];
      try reflexivity.
    now rewrite (observations_swap cj ci), pearson_swap.
  - intros i c Hc. rewrite entry_corr, Hc, observations_diag. split.
    + intros (r1 & r2 & x1 & x2 & H1 & H2 & E1 & E2 & Hne).
      do 2 f_equal. apply (pearson_diag_varies _ x1 x2); try exact Hne;
        apply held_spec; eauto.
    + intros Hnv. do 2 f_equal. apply pearson_diag_const.
      intros x1 x2 H1 H2. apply held_spec in H1, H2.
      destruct H1 as (r1 & Hr1 & E1), H2 as (r2 & Hr2 & E2).
      destruct (Z.eq_dec x1 x2) as [E|Hne]; [exact E|].
      exfalso. apply Hnv. exists r1, r2, x1, x2. auto.
Qed.

End Correlation.

(* ================================================================== *)
(** * Claims on the heatmap *)
(* ================================================================== *)

Section HeatmapClaims.
Import Pandas Frame.

Lemma empty_nil {A : Type} (l : list A) : empty l = true <-> l = [].
Proof. destruct l; simpl; split; congruence. Qed.


Lemma App_heatmap_spec (fdf : DataFrame) :
  App.heatmap fdf
  = if negb (empty (App.cols fdf) || empty (App.corr_df fdf))
       && (2 <=? List.length (App.cols fdf))%nat
    then Some (corr (App.cols fdf) (App.corr_df fdf)) else None.
Proof. reflexivity. Qed.

Lemma Covid19_heatmap_spec (fdf : DataFrame) :
  Covid19.heatmap fdf
  = if negb (empty (Covid19.cols fdf) || empty (Covid19.corr_df fdf))
       && (2 <=? List.length (Covid19.cols fdf))%nat
    then Some (corr (Covid19.cols fdf) (Covid19.corr_df fdf)) else None.
Proof.
  unfold Covid19.heatmap. rewrite Nat.ltb_antisym.
  destruct (empty (Covid19.cols fdf) || empty (Covid19.corr_df fdf));
    [reflexivity|].
  now destruct (2 <=? List.length (Covid19.cols fdf))%nat.
Qed.




End HeatmapClaims.

(** The heatmap of the sample without deaths is computed, and [New Cases]
    correlates with itself at 1. *)
Example heatmap_sample_unit :
  exists m,
    App.heatmap (App.filtered_df SampleCorr.df_no_deaths ["Bali"]
                   Sample.mar1 Sample.mar2) = Some m
    /\ Pandas.entry m 0 0 = Some (Some 1%R).
Proof.
  eexists. split; [reflexivity|].
  apply (proj2 (proj2 (proj2 (corr_shape _ _))) 0%nat NewCases); [reflexivity|].
  exists (SampleCorr.full 0 Sample.mar1 "Bali" 5 0 1 10 0 1 9),
         (SampleCorr.full 1 Sample.mar2 "Bali" 7 0 2 17 0 3 14), 5, 7.
  repeat split; try (vm_compute; tauto). discriminate.
Qed.



(* ================================================================== *)
(** * Runs of the scripts *)
(* ================================================================== *)

Section Runs.
Import Pandas Frame Streamlit.
Context {S : DateSort}.

Lemma has_col_assign_year (c : string) (df : DataFrame) :
  has_col c (Covid19.assign_year df) = has_col c df || String.eqb c "year".
Proof.
  unfold Covid19.assign_year, has_col at 1 3. cbn [columns].
  destruct (has_col "year" df) eqn:Ey.
  - destruct (String.eqb c "year") eqn:E; [|now rewrite orb_false_r].
    apply String.eqb_eq in E. subst c. unfold has_col in Ey. now rewrite Ey.
  - rewrite existsb_app. cbn [existsb]. now rewrite orb_false_r.
Qed.






End Runs.

Section RunClaims.
Import Pandas Frame Streamlit.
Context {S : DateSort}.


End RunClaims.


Section SchemaClaims.
Import Pandas Frame Streamlit.
Context {S : DateSort}.


End SchemaClaims.


(* ================================================================== *)
(** * The detail table *)
(* ================================================================== *)

Section DetailTable.
Import Pandas Frame Streamlit.
Context {S : DateSort}.


Lemma reset_index_from_cells (i : nat) (l : list DetailRow) :
  map cells (reset_index_from i l) = map cells l.
Proof.
  revert i. induction l as [|r t IH]; intros i; [reflexivity|].
  cbn [reset_index_from map]. now rewrite IH.
Qed.




Lemma length_reset_index_from (i : nat) (l : list DetailRow) :
  List.length (reset_index_from i l) = List.length l.
Proof.
  revert i. induction l as [|r t IH]; intros i; [reflexivity|].
  cbn [reset_index_from List.length]. now rewrite IH.
Qed.

Lemma province_eq_spec (prov : string) (r : Row) :
  province_eq prov r = true <-> Province r = Some prov.
Proof. apply in_group_spec. Qed.




End DetailTable.



(* ================================================================== *)
(** * The two scripts side by side *)
(* ================================================================== *)

Section TwoScripts.
Import Pandas Frame Streamlit.
Context {S : DateSort}.

(** C9 (amended).  On a file that both loaders accept without a notice, and
    for the same widget values: the two Filtered Views have the same rows
    and the same columns, except that the view of [src/covid19/app.py] also
    has the derived column [year]; the latest totals, the cases-vs-deaths
    frame, the total-cases proportions, the daily trend and the detail
    tables are equal, and so are the column tests that guard them; the
    correlation matrices are equal when the file has neither [New Recovered]
    nor [Total Recovered]. *)
Theorem scripts_agree (file : option DataFrame) (dfa dfc : DataFrame)
  (ui : Controls) :
  App.load_data file = ([], Done dfa) ->
  Covid19.load_data file = ([], Done dfc) ->
  let ps := provinces ui in
  let fa := App.filtered_df dfa ps (start_date ui) (end_date ui) in
  let fc := Covid19.filtered_df dfc ps (start_date ui) (end_date ui) in
  (rows fc = rows fa
   /\ (forall c, c <> "year" -> has_col c fc = has_col c fa)
   /\ has_col "year" fc = true)
  /\ Covid19.bar_data fc ps = App.bar_data fa ps
  /\ (Covid19.scat_df fc ps = App.scat_df fa ps
      /\ issubset ["Total Cases"; "Total Deaths"] fc
         = issubset ["Total Cases"; "Total Deaths"] fa)
  /\ Covid19.pie_df fc ps = App.pie_df fa ps
  /\ (Covid19.area_df fc = App.area_df fa
      /\ has_col "Total Cases" fc = has_col "Total Cases" fa)
  /\ ((forall prov, Covid19.show_df fc prov = App.show_df fa prov)
      /\ df_empty fc = df_empty fa
      /\ issubset Covid19.cols_show fc = issubset App.cols_show fa)
  /\ (has_col "New Recovered" dfa = false ->
      has_col "Total Recovered" dfa = false ->
      Covid19.heatmap fc = App.heatmap fa).
Proof.
  intros Ha Hc ps fa fc.
  destruct file as [df|]; [|discriminate].
  unfold App.load_data in Ha. unfold Covid19.load_data in Hc.
  destruct (has_col "Date" df) eqn:HDate; [|discriminate].
  cbn in Ha, Hc. injection Ha as <-. injection Hc as <-.
  assert (Hcol : forall c, c <> "year" -> has_col c fc = has_col c fa).
  { intros c Hne.
    change (has_col c (Covid19.assign_year df) = has_col c df).
    rewrite has_col_assign_year.
    apply String.eqb_neq in Hne. rewrite Hne. apply orb_false_r. }
  assert (Hnum : forall c, has_col (col_name c) fc = has_col (col_name c) fa)
    by (intros c; apply Hcol; destruct c; discriminate).
  split; [split; [reflexivity|split; [exact Hcol|]]|].
  { change (has_col "year" (Covid19.assign_year df) = true).
    rewrite has_col_assign_year. apply orb_true_r. }
  split; [reflexivity|].
  split; [split; [reflexivity|]|].
  { unfold issubset. cbn [forallb]. now rewrite !Hcol by discriminate. }
  split; [reflexivity|].
  split; [split; [reflexivity|now apply Hcol]|].
  split; [split; [reflexivity|split]|].
  { unfold df_empty.
    change (rows fc) with (rows fa). f_equal.
    unfold fc, fa, Covid19.filtered_df, App.filtered_df,
      Covid19.assign_year. cbn [columns].
    destruct (has_col "year" df); [reflexivity|].
    unfold has_col in HDate.
    destruct (columns df); [discriminate|reflexivity]. }
  { unfold issubset, Covid19.cols_show, App.cols_show. cbn [forallb].
    now rewrite !Hcol by discriminate. }
  intros HNR HTR.
  assert (Hcols : Covid19.cols fc = App.cols fa).
  { unfold Covid19.cols, App.cols. cbn [filter]. rewrite !Hnum.
    change (has_col (col_name NewRecovered) fa)
      with (has_col "New Recovered" df).
    change (has_col (col_name TotalRecovered) fa)
      with (has_col "Total Recovered" df).
    rewrite HNR, HTR. reflexivity. }
  rewrite Covid19_heatmap_spec, App_heatmap_spec.
  unfold Covid19.corr_df, App.corr_df. rewrite Hcols. reflexivity.
Qed.

End TwoScripts.

(** C9, witness: the sample file, March, both scripts' bar data. *)
Lemma scripts_agree_witness :
  @Covid19.bar_data Insertion
    (Covid19.filtered_df (Covid19.assign_year Sample.df) ["Aceh"; "Bali"]
       Sample.mar1 Sample.mar3) ["Aceh"; "Bali"]
  = @App.bar_data Insertion
      (App.filtered_df Sample.df ["Aceh"; "Bali"] Sample.mar1 Sample.mar3)
      ["Aceh"; "Bali"].
Proof.
  exact (proj1 (proj2 (@scripts_agree Insertion (Some Sample.df) Sample.df
                         (Covid19.assign_year Sample.df) SampleRun.march
                         eq_refl eq_refl))).
Defined.

(** C9, as stated, fails: on the file that reports recoveries only, the
    Filtered View of [src/covid19/app.py] has a column the other lacks, and
    [src/app.py] computes a correlation matrix where [src/covid19/app.py]
    computes none. *)
Lemma scripts_differ_on_heatmap :
  let file := Some SampleCorr.df_recovered_only in
  let dfc := Covid19.assign_year SampleCorr.df_recovered_only in
  let fa := App.filtered_df SampleCorr.df_recovered_only ["Bali"]
              Sample.mar1 Sample.mar2 in
  let fc := Covid19.filtered_df dfc ["Bali"] Sample.mar1 Sample.mar2 in
  App.load_data file = ([], Streamlit.Done SampleCorr.df_recovered_only)
  /\ Covid19.load_data file = ([], Streamlit.Done dfc)
  /\ has_col "year" fa = false /\ has_col "year" fc = true
  /\ Covid19.heatmap fc = None
  /\ App.heatmap fa <> Covid19.heatmap fc.
Proof.
  cbn zeta.
  split; [reflexivity|]. split; [reflexivity|]. split; [reflexivity|].
  split; [reflexivity|]. split; [reflexivity|]. discriminate.
Qed.

(* ================================================================== *)
(** * Scenarios *)
(* ================================================================== *)

(** Selecting Bali on 2 March alone leaves exactly Bali's record of that
    day. *)
Example scenario_single_record :
  rows (App.filtered_df Sample.df ["Bali"] Sample.mar2 Sample.mar2)
  = [Sample.totals 3 Sample.mar2 "Bali" (Some 9) (Some 2)].
Proof. reflexivity. Qed.

(** With no province selected the view is empty, the bar, scatter and pie
    data are empty, and no detail table is built. *)
Example scenario_no_province :
  let fdf := App.filtered_df Sample.df [] Sample.mar1 Sample.mar3 in
  rows fdf = []
  /\ @App.bar_data Insertion fdf [] = []
  /\ @App.scat_df Insertion fdf [] = []
  /\ @App.pie_df Insertion fdf [] = []
  /\ @App.data_table Insertion fdf [] = ([], Streamlit.Done None).
Proof. cbn zeta. repeat split. Qed.

(** The latest totals of the sample, from the file and from its shuffle;
    on 3 March alone Aceh has no record and is filled with 0. *)
Example scenario_bar_data :
  @App.bar_data Insertion
    (App.filtered_df Sample.df ["Aceh"; "Bali"] Sample.mar1 Sample.mar3)
    ["Aceh"; "Bali"]
  = [("Aceh", 3); ("Bali", 12)]
  /\ @App.bar_data Insertion
       (App.filtered_df Sample.df_shuffled ["Aceh"; "Bali"]
          Sample.mar1 Sample.mar3) ["Aceh"; "Bali"]
     = [("Aceh", 3); ("Bali", 12)]
  /\ @App.bar_data Insertion
       (App.filtered_df Sample.df ["Aceh"; "Bali"] Sample.mar3 Sample.mar3)
       ["Aceh"; "Bali"]
     = [("Aceh", 0); ("Bali", 12)].
Proof. repeat split. Qed.

(** A file without [Province] halts both scripts before any filtering. *)
Example scenario_no_province_column :
  @App.session Insertion (Some SampleRun.df_no_province) SampleRun.march
  = ([], Streamlit.Stopped App.msg_no_province)
  /\ @Covid19.session Insertion (Some SampleRun.df_no_province) SampleRun.march
     = ([], Streamlit.Stopped Covid19.msg_no_province).
Proof. split; reflexivity. Qed.

(** A missing file halts both scripts. *)
Example scenario_no_file :
  @App.session Insertion None SampleRun.march
  = ([], Streamlit.Stopped App.msg_no_file)
  /\ @Covid19.session Insertion None SampleRun.march
     = ([], Streamlit.Stopped Covid19.msg_no_file).
Proof. split; reflexivity. Qed.

(** Without [Total Deaths] the scatter block is skipped and the other charts
    are drawn. *)
Example scenario_no_total_deaths :
  let fdf := App.filtered_df
               (mkDF ["Date"; "Province"; "Total Cases"] (rows Sample.df))
               ["Aceh"; "Bali"] Sample.mar1 Sample.mar3 in
  exists c, @App.charts Insertion fdf ["Aceh"; "Bali"] = ([], Streamlit.Done c)
            /\ App.scatter_chart c = None
            /\ App.bar_chart c = Some [("Aceh", 3); ("Bali", 12)]
            /\ App.pie_chart c = Some [("Aceh", 3); ("Bali", 12)].
Proof. cbn zeta. eexists. split; [reflexivity|]. repeat split. Qed.

(** The daily trend of the sample. *)
Example scenario_area_df :
  @App.area_df Insertion
    (App.filtered_df Sample.df ["Aceh"; "Bali"] Sample.mar1 Sample.mar3)
  = [(Sample.mar1, 5); (Sample.mar2, 12); (Sample.mar3, 12)].
Proof. reflexivity. Qed.

(* ================================================================== *)
(** * Further properties: the filter *)
(* ================================================================== *)

Lemma filter_implied {A : Type} (f g : A -> bool) (l : list A) :
  (forall a, In a l -> g a = true -> f a = true) ->
  filter g (filter f l) = filter g l.
Proof.
  induction l as [|a t IH]; intros H; [reflexivity|]. cbn [filter].
  destruct (f a) eqn:Ef; cbn [filter].
  - destruct (g a); rewrite IH; auto; intros; apply H; auto; now right.
  - destruct (g a) eqn:Eg.
    + rewrite (H a) in Ef; [discriminate|now left|exact Eg].
    + apply IH. intros; apply H; auto. now right.
Qed.

(** X1.  Filtering is idempotent: applying the same criteria to the
    Filtered View gives the Filtered View back, in both scripts. *)
Theorem filtered_df_idempotent (df : DataFrame) (provinces : list string)
  (start_date end_date : date) :
  App.filtered_df (App.filtered_df df provinces start_date end_date)
    provinces start_date end_date
  = App.filtered_df df provinces start_date end_date
  /\ Covid19.filtered_df (Covid19.filtered_df df provinces start_date end_date)
       provinces start_date end_date
     = Covid19.filtered_df df provinces start_date end_date.
Proof.
  assert (H : App.filtered_df (App.filtered_df df provinces start_date end_date)
                provinces start_date end_date
              = App.filtered_df df provinces start_date end_date).
  { unfold App.filtered_df. cbn [rows columns]. f_equal.
    apply filter_implied. auto. }
  split; exact H.
Qed.

(** X2.  Narrowing composes: filtering a Filtered View by a sub-selection
    of its provinces and a sub-interval of its dates gives what the narrower
    criteria give on the Dataset itself. *)
Theorem filtered_df_narrow (df : DataFrame) (provinces provinces' : list string)
  (start_date end_date start_date' end_date' : date) :
  incl provinces' provinces ->
  date_le start_date start_date' ->
  date_le end_date' end_date ->
  App.filtered_df (App.filtered_df df provinces start_date end_date)
    provinces' start_date' end_date'
  = App.filtered_df df provinces' start_date' end_date'.
Proof.
  intros Hincl Hs He. unfold App.filtered_df. cbn [rows columns]. f_equal.
  apply filter_implied. intros r _ H.
  apply mask_spec in H. apply mask_spec.
  destruct H as ((p & Hp & Hin) & H1 & H2). split; [|split].
  - exists p. split; [exact Hp|now apply Hincl].
  - eapply date_le_trans; eassumption.
  - eapply date_le_trans; eassumption.
Qed.

(** X2, witness: narrowing the March view of Aceh and Bali to Bali on
    2 March. *)
Lemma filtered_df_narrow_witness :
  App.filtered_df
    (App.filtered_df Sample.df ["Aceh"; "Bali"] Sample.mar1 Sample.mar3)
    ["Bali"] Sample.mar2 Sample.mar2
  = App.filtered_df Sample.df ["Bali"] Sample.mar2 Sample.mar2.
Proof.
  apply (filtered_df_narrow Sample.df ["Aceh"; "Bali"] ["Bali"]
           Sample.mar1 Sample.mar3 Sample.mar2 Sample.mar2).
  - intros p Hp. simpl in *. tauto.
  - reflexivity.
  - reflexivity.
Defined.

(* ================================================================== *)
(** * Further properties: bar, pie and scatter data *)
(* ================================================================== *)

Section Shapes.
Import Pandas Frame.
Context {S : DateSort}.

Lemma holds_spec (c : NumCol) (rs : list Row) (p : string) :
  holds c rs p = true
  <-> exists r, In r rs /\ Province r = Some p /\ num c r <> None.
Proof.
  unfold holds. rewrite existsb_exists.
  split; intros (r & Hr & H); exists r; (split; [exact Hr|]).
  - apply andb_true_iff in H. destruct H as [H1 H2].
    apply in_group_spec in H1. split; [exact H1|].
    unfold notna in H2. destruct (num c r); congruence.
  - destruct H as [H1 H2]. apply andb_true_iff. split.
    + now apply in_group_spec.
    + unfold notna. destruct (num c r); congruence.
Qed.

Lemma notna_group_value (c : NumCol) (rs : list Row) (p : string) :
  notna (group_value c (sort_values Date rs) p) = holds c rs p.
Proof.
  pose proof (group_value_held c rs p) as H1.
  pose proof (holds_spec c rs p) as H2.
  destruct (holds c rs p).
  - pose proof (proj2 H1 (proj1 H2 eq_refl)) as H.
    unfold notna. destruct (group_value c (sort_values Date rs) p); congruence.
  - unfold notna.
    destruct (group_value c (sort_values Date rs) p) eqn:E; [|reflexivity].
    assert (H : Some z <> None) by discriminate.
    pose proof (proj2 H2 (proj1 H1 H)). discriminate.
Qed.

Lemma dropna_labels_of (f : string -> option Z) (ps : list string) :
  map fst (dropna (map (fun k => (k, f k)) ps))
  = filter (fun k => notna (f k)) ps.
Proof.
  induction ps as [|a t IH]; [reflexivity|].
  cbn [map dropna flat_map fst snd filter]. unfold dropna in IH.
  destruct (f a); cbn [notna app map fst]; now rewrite IH.
Qed.

Lemma dropna2_labels_of (f : string -> option Z * option Z) (ps : list string) :
  map fst (dropna2 (map (fun k => (k, f k)) ps))
  = filter (fun k => notna (fst (f k)) && notna (snd (f k))) ps.
Proof.
  induction ps as [|a t IH]; [reflexivity|].
  cbn [map dropna2 flat_map fst snd filter]. unfold dropna2 in IH.
  destruct (f a) as [[x|] [y|]]; cbn [notna app map fst snd andb];
    now rewrite IH.
Qed.

Lemma in_dropna (f : string -> option Z) (ps : list string) (p : string) (v : Z) :
  In (p, v) (dropna (map (fun k => (k, f k)) ps)) <-> In p ps /\ f p = Some v.
Proof.
  unfold dropna. rewrite in_flat_map. split.
  - intros (kv & Hkv & H). apply in_map_iff in Hkv.
    destruct Hkv as (k & <- & Hk). cbn [fst snd] in H.
    destruct (f k) as [x|] eqn:E; [|contradiction].
    destruct H as [[= <- <-]|[]]. auto.
  - intros [Hp Hv]. exists (p, f p). split.
    + apply in_map_iff. now exists p.
    + cbn [fst snd]. rewrite Hv. now left.
Qed.

Lemma in_dropna2 (f : string -> option Z * option Z) (ps : list string)
  (p : string) (a b : Z) :
  In (p, (a, b)) (dropna2 (map (fun k => (k, f k)) ps))
  <-> In p ps /\ f p = (Some a, Some b).
Proof.
  unfold dropna2. rewrite in_flat_map. split.
  - intros (kv & Hkv & H). apply in_map_iff in Hkv.
    destruct Hkv as (k & <- & Hk). cbn [fst snd] in H.
    destruct (f k) as [[x|] [y|]] eqn:E; try contradiction.
    destruct H as [[= <- <- <-]|[]]. auto.
  - intros [Hp Hv]. exists (p, f p). split.
    + apply in_map_iff. now exists p.
    + cbn [fst snd]. rewrite Hv. now left.
Qed.

(** X3.  The bar data has one entry per selected province, in the order of
    the selection, also for provinces without any record; so the bar chart
    is drawn exactly when at least one province is selected.  Both
    scripts. *)
Theorem bar_data_labels (fdf : DataFrame) (provinces : list string) :
  map fst (App.bar_data fdf provinces) = provinces
  /\ map fst (Covid19.bar_data fdf provinces) = provinces
  /\ (App.plotted (App.bar_data fdf provinces) = None <-> provinces = []).
Proof.
  assert (H : map fst (App.bar_data fdf provinces) = provinces).
  { unfold App.bar_data, fillna, reindex. rewrite !map_map. cbn [fst].
    apply map_id. }
  split; [exact H|split; [exact H|]].
  unfold App.plotted. rewrite <- H.
  destruct (App.bar_data fdf provinces); cbn; split; congruence.
Qed.

(** X4.  The labels of the pie data are the selected provinces of which
    some record in the view holds a total, in the order of the selection;
    those of the scatter data are the ones of which, besides, some record
    holds a deaths figure.  Every label of the scatter data is a label of
    the pie data. *)
Theorem pie_scatter_labels (fdf : DataFrame) (provinces : list string) :
  map fst (App.pie_df fdf provinces)
  = filter (holds TotalCases (rows fdf)) provinces
  /\ map fst (App.scat_df fdf provinces)
     = filter (fun p => holds TotalCases (rows fdf) p
                        && holds TotalDeaths (rows fdf) p) provinces
  /\ incl (map fst (App.scat_df fdf provinces))
          (map fst (App.pie_df fdf provinces)).
Proof.
  assert (Hpie : map fst (App.pie_df fdf provinces)
                 = filter (holds TotalCases (rows fdf)) provinces).
  { unfold App.pie_df. rewrite reindex_groupby_last, dropna_labels_of.
    apply filter_ext. intros p. apply notna_group_value. }
  assert (Hscat : map fst (App.scat_df fdf provinces)
                  = filter (fun p => holds TotalCases (rows fdf) p
                                     && holds TotalDeaths (rows fdf) p)
                           provinces).
  { unfold App.scat_df. rewrite reindex_groupby_last2.
    rewrite (dropna2_labels_of
               (fun k => (group_value TotalCases (sort_values Date (rows fdf)) k,
                          group_value TotalDeaths (sort_values Date (rows fdf)) k))).
    apply filter_ext. intros p. cbn [fst snd].
    now rewrite !notna_group_value. }
  split; [exact Hpie|split; [exact Hscat|]].
  rewrite Hpie, Hscat. intros p Hp. apply filter_In in Hp.
  destruct Hp as [Hp H]. apply andb_true_iff in H.
  apply filter_In. tauto.
Qed.

(** X5.  The charts agree: a province's total in the pie data is its value
    in the bar data, and the cases of a province in the scatter data are its
    total in the pie data. *)
Theorem pie_bar_scatter_agree (fdf : DataFrame) (provinces : list string)
  (p : string) :
  (forall v, In (p, v) (App.pie_df fdf provinces) ->
             loc p (App.bar_data fdf provinces) = Some v)
  /\ (forall a b, In (p, (a, b)) (App.scat_df fdf provinces) ->
                  In (p, a) (App.pie_df fdf provinces)).
Proof.
  split.
  - intros v H. unfold App.pie_df in H.
    rewrite reindex_groupby_last in H. apply in_dropna in H.
    destruct H as [Hp Hv]. rewrite bar_data_loc by exact Hp. now rewrite Hv.
  - intros a b H. unfold App.scat_df in H.
    rewrite reindex_groupby_last2 in H.
    apply (in_dropna2
             (fun k => (group_value TotalCases (sort_values Date (rows fdf)) k,
                        group_value TotalDeaths (sort_values Date (rows fdf)) k)))
      in H.
    destruct H as [Hp Hv]. injection Hv as Ha Hb.
    unfold App.pie_df. rewrite reindex_groupby_last. apply in_dropna. auto.
Qed.

(** X6.  No value is made up: every total in the pie data is the total of
    a record of that province in the view, and each figure of a scatter
    entry is the figure of a record of that province (the two figures may
    come from different records). *)
Theorem aggregated_values_from_records (fdf : DataFrame)
  (provinces : list string) (p : string) :
  (forall v, In (p, v) (App.pie_df fdf provinces) ->
     exists r, In r (rows fdf) /\ Province r = Some p
               /\ Total_Cases r = Some v)
  /\ (forall a b, In (p, (a, b)) (App.scat_df fdf provinces) ->
        (exists r, In r (rows fdf) /\ Province r = Some p
                   /\ Total_Cases r = Some a)
        /\ (exists r, In r (rows fdf) /\ Province r = Some p
                      /\ Total_Deaths r = Some b)).
Proof.
  split.
  - intros v H. unfold App.pie_df in H.
    rewrite reindex_groupby_last in H. apply in_dropna in H.
    destruct H as [_ Hv]. exact (group_value_some TotalCases _ _ _ Hv).
  - intros a b H. unfold App.scat_df in H.
    rewrite reindex_groupby_last2 in H.
    apply (in_dropna2
             (fun k => (group_value TotalCases (sort_values Date (rows fdf)) k,
                        group_value TotalDeaths (sort_values Date (rows fdf)) k)))
      in H.
    destruct H as [_ Hv]. injection Hv as Ha Hb. split.
    + exact (group_value_some TotalCases _ _ _ Ha).
    + exact (group_value_some TotalDeaths _ _ _ Hb).
Qed.

End Shapes.

(* ================================================================== *)
(** * Further properties: the daily trend *)
(* ================================================================== *)

Section Sums.

Lemma Zsum_perm (l l' : list Z) : Permutation l l' -> Zsum l = Zsum l'.
Proof.
  induction 1 as [|x l l' _ IH|x y l|l l' l'' _ IH1 _ IH2]; cbn [Zsum fold_right].
  - reflexivity.
  - unfold Zsum in IH. lia.
  - lia.
  - unfold Zsum in *. lia.
Qed.

Lemma Zsum_add {K : Type} (f g : K -> Z) (ks : list K) :
  Zsum (map (fun k => f k + g k) ks) = Zsum (map f ks) + Zsum (map g ks).
Proof.
  induction ks as [|k t IH]; [reflexivity|].
  cbn [map Zsum fold_right] in *. unfold Zsum in IH. lia.
Qed.

Lemma Zsum_scale {K : Type} (b : K -> bool) (c : Z) (ks : list K) :
  Zsum (map (fun k => if b k then c else 0) ks)
  = c * Zsum (map (fun k => if b k then 1 else 0) ks).
Proof.
  induction ks as [|k t IH]; [cbn; lia|].
  cbn [map Zsum fold_right] in *. unfold Zsum in IH. destruct (b k); lia.
Qed.

Lemma Zsum_all_zero {K : Type} (ks : list K) :
  Zsum (map (fun _ : K => 0) ks) = 0.
Proof. induction ks as [|k t IH]; [reflexivity|]. cbn in *. exact IH. Qed.

(** When each element of [l] matches exactly one key of [ks], summing the
    weights key by key gives the sum of all weights. *)
Lemma sum_by_key {A K : Type} (eqb : K -> A -> bool) (w : A -> Z)
  (ks : list K) (l : list A) :
  (forall a, In a l -> Zsum (map (fun k => if eqb k a then 1 else 0) ks) = 1) ->
  Zsum (map (fun k => Zsum (map w (filter (eqb k) l))) ks) = Zsum (map w l).
Proof.
  induction l as [|a t IH]; intros H.
  - cbn [filter map]. apply Zsum_all_zero.
  - rewrite (map_ext _ (fun k => (if eqb k a then w a else 0)
                                 + Zsum (map w (filter (eqb k) t)))).
    + rewrite Zsum_add, Zsum_scale, (H a) by now left.
      rewrite IH by (intros; apply H; now right).
      unfold Zsum. cbn [map fold_right]. lia.
    + intros k. cbn [filter]. destruct (eqb k a); reflexivity.
Qed.

Lemma count_one {A K : Type} (eqb : K -> A -> bool) (ks : list K) (a : A)
  (k0 : K) :
  NoDup ks -> In k0 ks -> (forall k, eqb k a = true <-> k = k0) ->
  Zsum (map (fun k => if eqb k a then 1 else 0) ks) = 1.
Proof.
  intros Hnd Hin Hk. induction Hnd as [|k t Hnot Hnd IH]; [contradiction|].
  cbn [map Zsum fold_right]. destruct (eqb k a) eqn:E.
  - apply Hk in E. subst k.
    assert (Hz : Zsum (map (fun k => if eqb k a then 1 else 0) t) = 0).
    { clear IH Hin Hnd. induction t as [|x t IH]; [reflexivity|].
      cbn [map Zsum fold_right]. destruct (eqb x a) eqn:Ex.
      - apply Hk in Ex. subst x. exfalso. apply Hnot. now left.
      - unfold Zsum in IH. rewrite IH; [reflexivity|].
        intros H. apply Hnot. now right. }
    unfold Zsum in Hz. lia.
  - destruct Hin as [->|Hin].
    + rewrite (proj2 (Hk k0) eq_refl) in E. discriminate.
    + unfold Zsum in IH. now rewrite IH.
Qed.

Lemma sum_valid_Zsum (c : NumCol) (rs : list Row) :
  Pandas.sum_valid (map (num c) rs)
  = Zsum (map (fun r => match num c r with Some x => x | None => 0 end) rs).
Proof.
  induction rs as [|r t IH]; [reflexivity|].
  cbn [map Pandas.sum_valid Zsum fold_right] in *.
  unfold Pandas.sum_valid, Zsum in IH. rewrite IH. now destruct (num c r).
Qed.

(** Two lists in strictly ascending key order with the same elements are
    the same list. *)
Lemma ascending_unique {A : Type} (lt : A -> A -> Prop) (l l' : list A) :
  (forall a b, lt a b -> lt b a -> False) ->
  StronglySorted lt l -> StronglySorted lt l' -> Permutation l l' -> l = l'.
Proof.
  intros Hasym Hs. revert l'.
  induction Hs as [|x t Hs IH Hall]; intros l' Hs' Hp.
  - apply Permutation_nil in Hp. now subst.
  - destruct Hs' as [|y t' Hs' Hall'].
    + apply Permutation_sym, Permutation_nil in Hp. discriminate.
    + rewrite Forall_forall in Hall, Hall'.
      assert (Hxy : x = y).
      { assert (Hx : In x (y :: t'))
          by (eapply Permutation_in; [exact Hp|now left]).
        assert (Hy : In y (x :: t))
          by (eapply Permutation_in; [apply Permutation_sym, Hp|now left]).
        destruct Hx as [Hx|Hx]; [now subst|].
        destruct Hy as [Hy|Hy]; [now subst|].
        exfalso. apply (Hasym x y); auto. }
      subst y. f_equal. apply IH; [exact Hs'|].
      now apply Permutation_cons_inv in Hp.
Qed.

Lemma strictly_ascending {A : Type} (key : A -> date) (l : list A) :
  StronglySorted (fun a b => date_le (key a) (key b)) l ->
  NoDup (map key l) ->
  StronglySorted (fun a b => date_lt (key a) (key b)) l.
Proof.
  induction 1 as [|x t Hs IH Hall]; intros Hnd; [constructor|].
  cbn [map] in Hnd. apply NoDup_cons_iff in Hnd. destruct Hnd as [Hnot Hnd].
  constructor; [now apply IH|].
  rewrite Forall_forall in *. intros y Hy.
  unfold date_lt. rewrite date_ltb_leb. apply negb_true_iff.
  destruct (date_leb (key y) (key x)) eqn:E; [exfalso|reflexivity].
  apply Hnot. rewrite (date_le_antisym (key x) (key y)); auto.
  now apply in_map.
Qed.

Lemma date_lt_asym (a b : date) : date_lt a b -> date_lt b a -> False.
Proof.
  intros H1 H2. apply (date_lt_not_le a b H1).
  unfold date_lt in H2. rewrite date_ltb_leb in H2.
  apply negb_true_iff in H2. now apply date_leb_total.
Qed.

End Sums.

Section Trend.
Import Pandas.
Context {S : DateSort}.

Lemma groupby_Date_sum_keys (c : NumCol) (rs : list Row) :
  map fst (groupby_Date_sum c rs) = nodup date_eq_dec (map Date rs).
Proof. unfold groupby_Date_sum. rewrite map_map. apply map_id. Qed.

Lemma area_df_ascending (fdf : DataFrame) :
  StronglySorted (fun a b => date_lt (fst a) (fst b)) (App.area_df fdf).
Proof.
  unfold App.area_df, sort_index.
  apply strictly_ascending; [apply sort_values_sorted|].
  eapply Permutation_NoDup;
    [apply Permutation_map, sort_values_perm|].
  rewrite groupby_Date_sum_keys. apply NoDup_nodup.
Qed.

(** X7.  The daily trend has exactly one entry per date that occurs in the
    view, in strictly ascending date order. *)
Theorem area_df_dates (fdf : DataFrame) :
  StronglySorted (fun a b => date_lt (fst a) (fst b)) (App.area_df fdf)
  /\ (forall d, In d (map fst (App.area_df fdf)) <->
                exists r, In r (rows fdf) /\ Date r = d)
  /\ Covid19.area_df fdf = App.area_df fdf.
Proof.
  unfold App.area_df, sort_index.
  pose proof (sort_values_perm _ fst (groupby_Date_sum TotalCases (rows fdf)))
    as Hp.
  split; [apply (area_df_ascending fdf)|split; [|reflexivity]].
  intros d.
    assert (H : In d (map fst (sort_values fst
                                 (groupby_Date_sum TotalCases (rows fdf))))
                <-> In d (map fst (groupby_Date_sum TotalCases (rows fdf)))).
    { split; apply Permutation_in; [apply Permutation_sym|];
        apply Permutation_map, Hp. }
    rewrite H, groupby_Date_sum_keys, nodup_In, in_map_iff.
    split; intros (r & H1 & H2); exists r; auto.
Qed.


End Trend.

(** X9.  The daily trend does not depend on the order of the rows, nor on
    the sorting algorithm. *)
Theorem area_df_row_order (S S' : Pandas.DateSort) (fdf fdf' : DataFrame) :
  Permutation (rows fdf) (rows fdf') ->
  @App.area_df S fdf = @App.area_df S' fdf'.
Proof.
  intros Hp.
  apply (ascending_unique (fun a b => date_lt (fst a) (fst b))).
  - intros a b. apply date_lt_asym.
  - apply (@area_df_ascending S).
  - apply (@area_df_ascending S').
  - unfold App.area_df, Pandas.sort_index.
    eapply perm_trans;
      [apply Permutation_sym, (@Pandas.sort_values_perm S)|].
    eapply perm_trans; [|apply (@Pandas.sort_values_perm S')].
    unfold Pandas.groupby_Date_sum.
    assert (Hk : Permutation (nodup date_eq_dec (map Date (rows fdf)))
                             (nodup date_eq_dec (map Date (rows fdf')))).
    { apply NoDup_Permutation; try apply NoDup_nodup.
      intros d. rewrite !nodup_In.
      split; apply Permutation_in; [|apply Permutation_sym];
        now apply Permutation_map. }
    eapply perm_trans; [apply Permutation_map, Hk|].
    rewrite (map_ext
               (fun d => (d, Pandas.sum_valid
                               (map (num TotalCases)
                                  (filter (fun r => date_eqb (Date r) d)
                                          (rows fdf)))))
               (fun d => (d, Pandas.sum_valid
                               (map (num TotalCases)
                                  (filter (fun r => date_eqb (Date r) d)
                                          (rows fdf')))))).
    + apply Permutation_refl.
    + intros d. f_equal. rewrite !sum_valid_Zsum. apply Zsum_perm.
      now apply Permutation_map, Permutation_filter.
Qed.

(** X9, witness: the sample and its shuffle, under two sorts. *)
Lemma area_df_row_order_witness :
  @App.area_df Insertion
    (App.filtered_df Sample.df ["Aceh"; "Bali"] Sample.mar1 Sample.mar3)
  = @App.area_df Reversing
      (App.filtered_df Sample.df_shuffled ["Aceh"; "Bali"]
         Sample.mar1 Sample.mar3).
Proof.
  apply (area_df_row_order Insertion Reversing).
  apply NoDup_Permutation_bis.
  - vm_compute. repeat constructor; simpl; intuition discriminate.
  - simpl; lia.
  - intros r Hr. vm_compute in Hr. each_row Hr; vm_compute; tauto.
Defined.

(* ================================================================== *)
(** * Further properties: the detail tables *)
(* ================================================================== *)

Section Tables.
Import Pandas Frame.
Context {S : DateSort}.

Lemma Zsum_ones {A : Type} (l : list A) :
  Zsum (map (fun _ => 1) l) = Z.of_nat (List.length l).
Proof.
  induction l as [|a t IH]; [reflexivity|].
  cbn [map Zsum fold_right List.length]. unfold Zsum in IH. lia.
Qed.

Lemma length_show_df (fdf : DataFrame) (prov : string) :
  List.length (App.show_df fdf prov)
  = List.length (filter (province_eq prov) (rows fdf)).
Proof.
  unfold App.show_df, reset_index. rewrite length_reset_index_from.
  rewrite <- (Permutation_length (sort_values_perm _ d_Date _)).
  apply length_map.
Qed.

Lemma show_df_cells (fdf : DataFrame) (prov : string) (x : DetailRow) :
  In x (App.show_df fdf prov) ->
  exists r, In r (rows fdf) /\ Province r = Some prov
            /\ cells x = cells (project r).
Proof.
  intros Hx. apply (in_map cells) in Hx.
  unfold App.show_df, reset_index in Hx.
  rewrite reset_index_from_cells in Hx. apply in_map_iff in Hx.
  destruct Hx as (y & Hy & Hin).
  apply (Permutation_in _ (Permutation_sym (sort_values_perm _ d_Date _)))
    in Hin.
  apply in_map_iff in Hin. destruct Hin as (r & <- & Hr).
  apply filter_In in Hr. destruct Hr as [Hr Hp].
  apply province_eq_spec in Hp. exists r. auto.
Qed.

(** X10.  The detail tables split the Filtered View: with distinct selected
    provinces, the tables together have as many rows as the view -- no
    record of the view is left out and none is shown twice -- and every row
    of a province's table is a record of that province. *)
Theorem detail_tables_partition (df : DataFrame) (provinces : list string)
  (start_date end_date : date) :
  NoDup provinces ->
  let fdf := App.filtered_df df provinces start_date end_date in
  Zsum (map (fun prov => Z.of_nat (List.length (App.show_df fdf prov)))
            provinces)
  = Z.of_nat (List.length (rows fdf))
  /\ (forall prov x, In x (App.show_df fdf prov) -> d_Province x = Some prov)
  /\ (forall prov, Covid19.show_df fdf prov = App.show_df fdf prov).
Proof.
  intros Hnd fdf. split; [|split; [|reflexivity]].
  - rewrite (map_ext _ (fun prov => Zsum (map (fun _ => 1)
                                            (filter (province_eq prov)
                                                    (rows fdf)))))
      by (intros p; now rewrite length_show_df, Zsum_ones).
    rewrite <- Zsum_ones.
    apply (sum_by_key province_eq (fun _ => 1)).
    intros r Hr. unfold fdf, App.filtered_df in Hr. cbn [rows] in Hr.
    apply filter_In in Hr. destruct Hr as [_ Hm]. apply mask_spec in Hm.
    destruct Hm as ((q & Hq & Hin) & _).
    apply (count_one province_eq _ r q); [exact Hnd|exact Hin|].
    intros k. rewrite province_eq_spec, Hq. split; congruence.
  - intros prov x Hx. destruct (show_df_cells _ _ _ Hx) as (r & _ & Hp & Hc).
    unfold cells in Hc. cbn in Hc. congruence.
Qed.

End Tables.

(** X10, witness: the March tables of Aceh and Bali hold the five records
    of the sample. *)
Lemma detail_tables_partition_witness :
  Zsum (map (fun prov =>
               Z.of_nat (List.length
                           (@App.show_df Insertion
                              (App.filtered_df Sample.df ["Aceh"; "Bali"]
                                 Sample.mar1 Sample.mar3) prov)))
            ["Aceh"; "Bali"]) = 5.
Proof.
  refine (proj1 (@detail_tables_partition Insertion Sample.df ["Aceh"; "Bali"]
                   Sample.mar1 Sample.mar3 _)).
  repeat constructor; simpl; intuition discriminate.
Defined.

(* ================================================================== *)
(** * Further properties: how a run ends *)
(* ================================================================== *)

Section Outcomes.
Import Pandas Frame Streamlit.
Context {S : DateSort}.

Lemma bind_ret_l {A B : Type} (a : A) (f : A -> Script B) :
  bind (ret a) f = f a.
Proof. unfold bind, ret. now destruct (f a). Qed.

Lemma bind_done {A B : Type} (ns : list Notice) (a : A) (f : A -> Script B) :
  bind (ns, Done a) f = (ns ++ fst (f a), snd (f a)).
Proof. unfold bind. now destruct (f a). Qed.

Lemma bind_raised {A B : Type} (ns : list Notice) (e : Exn)
  (f : A -> Script B) :
  bind (ns, Raised e) f = (ns, Raised e).
Proof. reflexivity. Qed.








(** How the chart block ends. *)
Lemma App_charts_raises (fdf : DataFrame) (ps : list string) :
  has_col "Total Cases" fdf = false ->
  App.charts fdf ps = ([], Raised (KeyError "Total Cases")).
Proof. intros H. unfold App.charts. cbn [require_cols]. now rewrite H. Qed.

Lemma Covid19_charts_raises (fdf : DataFrame) (ps : list string) :
  has_col "Total Cases" fdf = false ->
  Covid19.charts fdf ps = ([], Raised (KeyError "Total Cases")).
Proof. intros H. unfold Covid19.charts. cbn [require_cols]. now rewrite H. Qed.

Lemma validate_dates_done (s e : date) :
  exists ns, App.validate_dates s e = (ns, Done tt)
             /\ Covid19.validate_dates s e = (ns, Done tt)
             /\ (ns = [] \/ ns = [SidebarError App.msg_date_range]).
Proof.
  unfold App.validate_dates, Covid19.validate_dates.
  destruct (date_ltb e s); eexists; repeat split; auto.
Qed.

(** The script once the frame is loaded and has its two mandatory
    columns. *)
Lemma App_session_loaded (df : DataFrame) (ui : Controls) :
  has_col "Date" df = true -> has_col "Province" df = true ->
  App.session (Some df) ui
  = bind (App.validate_dates (start_date ui) (end_date ui)) (fun _ =>
    bind (if show_all ui
          then bind (App.charts (App.filtered_df df (provinces ui)
                                   (start_date ui) (end_date ui))
                       (provinces ui)) (fun c => ret (Some c))
          else ret None) (fun cs =>
    bind (App.data_table (App.filtered_df df (provinces ui)
                            (start_date ui) (end_date ui)) (provinces ui))
         (fun ts =>
    ret {| App.view := App.filtered_df df (provinces ui)
                         (start_date ui) (end_date ui);
           App.combined := cs; App.tables := ts |}))).
Proof.
  intros HDate HProv. unfold App.session, App.load_data.
  rewrite HDate. cbn [negb]. rewrite bind_ret_l.
  rewrite HProv. cbn [negb]. rewrite bind_ret_l.
  cbn [require_cols]. rewrite HDate. rewrite bind_ret_l. reflexivity.
Qed.

Lemma Covid19_session_loaded (df : DataFrame) (ui : Controls) :
  has_col "Date" df = true -> has_col "Province" df = true ->
  Covid19.session (Some df) ui
  = bind (Covid19.validate_dates (start_date ui) (end_date ui)) (fun _ =>
    bind (if show_all ui
          then bind (Covid19.charts
                       (Covid19.filtered_df (Covid19.assign_year df)
                          (provinces ui) (start_date ui) (end_date ui))
                       (provinces ui)) (fun c => ret (Some c))
          else ret None) (fun cs =>
    bind (Covid19.data_table
            (Covid19.filtered_df (Covid19.assign_year df) (provinces ui)
               (start_date ui) (end_date ui)) (provinces ui))
         (fun ts =>
    ret {| Covid19.view := Covid19.filtered_df (Covid19.assign_year df)
                             (provinces ui) (start_date ui) (end_date ui);
           Covid19.combined := cs; Covid19.tables := ts |}))).
Proof.
  intros HDate HProv. unfold Covid19.session, Covid19.load_data.
  rewrite HDate. rewrite bind_ret_l.
  rewrite has_col_assign_year, HProv. cbn [orb negb]. rewrite bind_ret_l.
  cbn [require_cols]. rewrite has_col_assign_year, HDate. cbn [orb].
  rewrite bind_ret_l. reflexivity.
Qed.

Lemma has_col_columns (c : string) (df df' : DataFrame) :
  columns df = columns df' -> has_col c df = has_col c df'.
Proof. unfold has_col. now intros ->. Qed.

Lemma issubset_columns (cs : list string) (df df' : DataFrame) :
  columns df = columns df' -> issubset cs df = issubset cs df'.
Proof.
  intros H. unfold issubset. induction cs as [|c t IH]; [reflexivity|].
  cbn [forallb]. now rewrite IH, (has_col_columns c df df' H).
Qed.



End Outcomes.

Section RunOutcomes.
Import Pandas Frame Streamlit.
Context {S : DateSort}.







(** X12.  The bar block is not guarded: on a file that has a row and the
    columns [Date] and [Province] but no [Total Cases], a run with the
    charts shown ends in [KeyError: 'Total Cases'] in both scripts, whatever
    the selection. *)
Theorem missing_total_cases_raises (df : DataFrame) (ui : Controls) :
  rows df <> [] ->
  has_col "Date" df = true -> has_col "Province" df = true ->
  has_col "Total Cases" df = false -> show_all ui = true ->
  (exists ns, App.session (Some df) ui
              = (ns, Raised (KeyError "Total Cases")))
  /\ (exists ns, Covid19.session (Some df) ui
                 = (ns, Raised (KeyError "Total Cases"))).
Proof.
  intros _ HDate HProv HTC Hshow.
  destruct (validate_dates_done (start_date ui) (end_date ui))
    as (ns & Ha & Hc & _).
  split.
  - rewrite (App_session_loaded df ui HDate HProv), Ha, bind_done, Hshow.
    rewrite (App_charts_raises
               (App.filtered_df df (provinces ui) (start_date ui) (end_date ui))
               _ HTC), !bind_raised. cbn [fst snd].
    eexists; reflexivity.
  - rewrite (Covid19_session_loaded df ui HDate HProv), Hc, bind_done, Hshow.
    rewrite Covid19_charts_raises, !bind_raised; [cbn [fst snd]; eexists; reflexivity|].
    change (has_col "Total Cases" (Covid19.assign_year df) = false).
    now rewrite has_col_assign_year, HTC.
Qed.

(** X13.  On a file without [Date] but with [Province], every run of
    [src/covid19/app.py] shows the loader's warning and then ends in
    [KeyError: 'Date'], before any filtering. *)
Theorem covid19_missing_date_raises (df : DataFrame) (ui : Controls) :
  has_col "Date" df = false -> has_col "Province" df = true ->
  Covid19.session (Some df) ui
  = ([Warning Covid19.msg_no_date], Raised (KeyError "Date")).
Proof.
  intros HDate HProv. unfold Covid19.session, Covid19.load_data.
  rewrite HDate. cbn [bind warning ret app]. rewrite HProv.
  cbn [negb bind ret app require_cols]. now rewrite HDate.
Qed.

End RunOutcomes.

(** X12, witness: the sample without its [Total Cases] column. *)
Lemma missing_total_cases_raises_witness :
  exists ns,
    @App.session Insertion
      (Some (mkDF ["Date"; "Province"; "Total Deaths"] (rows Sample.df)))
      SampleRun.march
    = (ns, Streamlit.Raised (Streamlit.KeyError "Total Cases")).
Proof.
  refine (proj1 (@missing_total_cases_raises Insertion
                  (mkDF ["Date"; "Province"; "Total Deaths"] (rows Sample.df))
                  SampleRun.march _ eq_refl eq_refl eq_refl eq_refl)).
  discriminate.
Defined.


(** X13, witness: the file without [Date]. *)
Lemma covid19_missing_date_raises_witness :
  @Covid19.session Insertion (Some SampleRun.df_no_date) SampleRun.march
  = ([Streamlit.Warning Covid19.msg_no_date],
     Streamlit.Raised (Streamlit.KeyError "Date")).
Proof.
  exact (@covid19_missing_date_raises Insertion SampleRun.df_no_date
           SampleRun.march eq_refl eq_refl).
Defined.

Section TableErrors.
Import Pandas Frame Streamlit.
Context {S : DateSort}.


End TableErrors.


(* ================================================================== *)
(** * Further properties: the sidebar *)
(* ================================================================== *)

Section StringOrder.

Lemma string_leb_trans (s1 s2 s3 : string) :
  String.leb s1 s2 = true -> String.leb s2 s3 = true -> String.leb s1 s3 = true.
Proof.
  unfold String.leb. revert s2 s3.
  induction s1 as [|c1 s1 IH]; intros [|c2 s2] [|c3 s3]; cbn [String.compare];
    try congruence.
  unfold Ascii.compare.
  destruct (N.compare_spec (Ascii.N_of_ascii c1) (Ascii.N_of_ascii c2)) as [E12|L12|G12];
    destruct (N.compare_spec (Ascii.N_of_ascii c2) (Ascii.N_of_ascii c3)) as [E23|L23|G23];
    destruct (N.compare_spec (Ascii.N_of_ascii c1) (Ascii.N_of_ascii c3)) as [E13|L13|G13];
    try congruence; try lia; auto.
  apply IH.
Qed.

Lemma string_ltb_of_leb (a b : string) :
  String.leb a b = true -> a <> b -> String.ltb a b = true.
Proof.
  unfold String.leb, String.ltb. destruct (String.compare a b) eqn:E;
    try congruence.
  intros _ H. now apply String.compare_eq_iff in E.
Qed.

Lemma string_ltb_leb (a b : string) :
  String.ltb a b = true -> String.leb a b = true.
Proof.
  unfold String.leb, String.ltb. now destruct (String.compare a b).
Qed.

Lemma string_ltb_irrefl (a : string) : String.ltb a a = true -> False.
Proof.
  unfold String.ltb. intros H.
  pose proof (String.compare_antisym a a) as Ha.
  destruct (String.compare a a); cbn in Ha; congruence.
Qed.

Lemma Python_insert_perm (x : string) (l : list string) :
  Permutation (x :: l) (Python.insert x l).
Proof.
  induction l as [|y t IH]; simpl.
  - apply Permutation_refl.
  - destruct (String.leb x y).
    + apply Permutation_refl.
    + eapply perm_trans; [apply perm_swap|]. now apply perm_skip.
Qed.

Lemma Python_sorted_perm (l : list string) : Permutation l (Python.sorted l).
Proof.
  induction l as [|x t IH]; simpl.
  - constructor.
  - eapply perm_trans; [|apply Python_insert_perm]. now apply perm_skip.
Qed.

Lemma Python_insert_sorted (x : string) (l : list string) :
  StronglySorted (fun a b => String.leb a b = true) l ->
  StronglySorted (fun a b => String.leb a b = true) (Python.insert x l).
Proof.
  induction 1 as [|y t Hs IH Hall]; simpl.
  - repeat constructor.
  - destruct (String.leb x y) eqn:E.
    + constructor; [now constructor|].
      constructor; [exact E|].
      eapply Forall_impl; [|exact Hall].
      intros z Hz. eapply string_leb_trans; eassumption.
    + constructor; [exact IH|].
      eapply Permutation_Forall; [apply Python_insert_perm|].
      constructor; [|exact Hall].
      destruct (String.leb_total x y) as [H|H]; congruence.
Qed.

Lemma Python_sorted_sorted (l : list string) :
  StronglySorted (fun a b => String.leb a b = true) (Python.sorted l).
Proof.
  induction l as [|x t IH]; simpl.
  - constructor.
  - now apply Python_insert_sorted.
Qed.

Lemma unique_In (l : list string) (x : string) :
  In x (Pandas.unique l) <-> In x l.
Proof.
  induction l as [|y t IH]; [tauto|]. cbn [Pandas.unique In].
  rewrite filter_In, IH, negb_true_iff, String.eqb_neq.
  destruct (string_dec y x) as [->|Hne]; [tauto|].
  split; [tauto|]. intros [H|H]; [congruence|]. right. split; congruence.
Qed.

Lemma unique_NoDup (l : list string) : NoDup (Pandas.unique l).
Proof.
  induction l as [|y t IH]; [constructor|]. cbn [Pandas.unique].
  constructor.
  - rewrite filter_In, negb_true_iff, String.eqb_neq. tauto.
  - now apply NoDup_filter.
Qed.

Lemma strictly_ascending_strings (l : list string) :
  StronglySorted (fun a b => String.leb a b = true) l -> NoDup l ->
  StronglySorted (fun a b => String.ltb a b = true) l.
Proof.
  induction 1 as [|x t Hs IH Hall]; intros Hnd; [constructor|].
  apply NoDup_cons_iff in Hnd. destruct Hnd as [Hnot Hnd].
  constructor; [now apply IH|].
  rewrite Forall_forall in *. intros y Hy.
  apply string_ltb_of_leb; [now apply Hall|]. congruence.
Qed.

Lemma StronglySorted_app_inv {A : Type} (R : A -> A -> Prop) (l1 l2 : list A) :
  StronglySorted R (l1 ++ l2) ->
  forall a b, In a l1 -> In b l2 -> R a b.
Proof.
  induction l1 as [|x t IH]; [intros _ a b []|].
  cbn [app]. intros H a b Ha Hb. apply StronglySorted_inv in H.
  destruct H as [Hs Hall]. destruct Ha as [<-|Ha].
  - rewrite Forall_forall in Hall. apply Hall, in_or_app. now right.
  - now apply IH.
Qed.

End StringOrder.

Section Sidebar.
Import Pandas Streamlit.

Lemma provinsi_list_ascending (df : DataFrame) :
  StronglySorted (fun a b => String.ltb a b = true) (App.provinsi_list df).
Proof.
  unfold App.provinsi_list. apply strictly_ascending_strings.
  - apply Python_sorted_sorted.
  - eapply Permutation_NoDup; [apply Python_sorted_perm|apply unique_NoDup].
Qed.

(** X15.  The options of the province selector are exactly the provinces
    that occur in the file (nulls left out), each once, in strictly
    ascending order; both scripts offer the same list. *)
Theorem provinsi_list_spec (df : DataFrame) :
  (forall p, In p (App.provinsi_list df) <->
             exists r, In r (rows df) /\ Province r = Some p)
  /\ StronglySorted (fun a b => String.ltb a b = true) (App.provinsi_list df)
  /\ NoDup (App.provinsi_list df)
  /\ Covid19.provinsi_list df = App.provinsi_list df.
Proof.
  split; [|split; [apply provinsi_list_ascending|split; [|reflexivity]]].
  - intros p. unfold App.provinsi_list.
    assert (H : In p (Python.sorted
                        (unique (dropna_labels (map Province (rows df)))))
                <-> In p (unique (dropna_labels (map Province (rows df))))).
    { split; apply Permutation_in; [apply Permutation_sym|];
        apply Python_sorted_perm. }
    rewrite H, unique_In. unfold dropna_labels. rewrite in_flat_map. split.
    + intros (v & Hv & Hp). apply in_map_iff in Hv.
      destruct Hv as (r & <- & Hr). exists r. split; [exact Hr|].
      destruct (Province r); cbn in Hp; [|contradiction].
      destruct Hp as [->|[]]. reflexivity.
    + intros (r & Hr & Hp). exists (Some p). split.
      * rewrite <- Hp. now apply in_map.
      * now left.
  - unfold App.provinsi_list.
    eapply Permutation_NoDup; [apply Python_sorted_perm|apply unique_NoDup].
Qed.

(** X16.  The default selection is the same in both scripts (the length
    test of [src/covid19/app.py] changes nothing): the first provinces of
    the option list, three of them if there are that many, each of them
    alphabetically before every option that is not selected. *)
Theorem default_provinces_spec (df : DataFrame) :
  Covid19.default_provinces df = App.default_provinces df
  /\ List.length (App.default_provinces df)
     = Nat.min 3 (List.length (App.provinsi_list df))
  /\ incl (App.default_provinces df) (App.provinsi_list df)
  /\ (forall p q, In p (App.default_provinces df) ->
                  In q (App.provinsi_list df) ->
                  ~ In q (App.default_provinces df) ->
                  String.ltb p q = true).
Proof.
  split; [|split; [|split]].
  - unfold Covid19.default_provinces, App.default_provinces.
    change (Covid19.provinsi_list df) with (App.provinsi_list df).
    destruct (3 <=? List.length (App.provinsi_list df))%nat eqn:E;
      [reflexivity|].
    apply Nat.leb_gt in E. symmetry. apply firstn_all2. lia.
  - apply length_firstn.
  - unfold App.default_provinces. intros p Hp.
    rewrite <- (firstn_skipn 3 (App.provinsi_list df)).
    apply in_or_app. now left.
  - intros p q Hp Hq Hnq. unfold App.default_provinces in *.
    pose proof (provinsi_list_ascending df) as Hs.
    rewrite <- (firstn_skipn 3 (App.provinsi_list df)) in Hs, Hq.
    apply in_app_or in Hq. destruct Hq as [Hq|Hq]; [contradiction|].
    exact (StronglySorted_app_inv _ _ _ Hs p q Hp Hq).
Qed.

Lemma date_min_spec (d : date) (t : list date) :
  let m := fold_left (fun m x => if date_leb x m then x else m) t d in
  In m (d :: t) /\ forall x, In x (d :: t) -> date_le m x.
Proof.
  revert d. induction t as [|y t IH]; intros d; cbn [fold_left].
  - split; [now left|]. intros x [<-|[]]. apply date_le_refl.
  - destruct (date_leb y d) eqn:E.
    + destruct (IH y) as [Hin Hle]. split.
      * destruct Hin as [H|H]; [right; left; exact H|right; right; exact H].
      * intros x [<-|[<-|Hx]].
        -- eapply date_le_trans; [apply Hle; now left|exact E].
        -- apply Hle. now left.
        -- apply Hle. now right.
    + destruct (IH d) as [Hin Hle]. split.
      * destruct Hin as [H|H]; [left; exact H|right; right; exact H].
      * intros x [<-|[<-|Hx]].
        -- apply Hle. now left.
        -- eapply date_le_trans; [apply Hle; now left|].
           now apply date_leb_total.
        -- apply Hle. now right.
Qed.

Lemma date_max_spec (d : date) (t : list date) :
  let m := fold_left (fun m x => if date_leb m x then x else m) t d in
  In m (d :: t) /\ forall x, In x (d :: t) -> date_le x m.
Proof.
  revert d. induction t as [|y t IH]; intros d; cbn [fold_left].
  - split; [now left|]. intros x [<-|[]]. apply date_le_refl.
  - destruct (date_leb d y) eqn:E.
    + destruct (IH y) as [Hin Hle]. split.
      * destruct Hin as [H|H]; [right; left; exact H|right; right; exact H].
      * intros x [<-|[<-|Hx]].
        -- eapply date_le_trans; [exact E|apply Hle; now left].
        -- apply Hle. now left.
        -- apply Hle. now right.
    + destruct (IH d) as [Hin Hle]. split.
      * destruct Hin as [H|H]; [left; exact H|right; right; exact H].
      * intros x [<-|[<-|Hx]].
        -- apply Hle. now left.
        -- eapply date_le_trans; [|apply Hle; now left].
           now apply date_leb_total.
        -- apply Hle. now right.
Qed.

(** X17.  On a file with at least one row, the bounds of the date pickers
    are the earliest and the latest date of the file.  With both pickers at
    their defaults no sidebar error is shown and the date filter excludes
    nothing: the Filtered View holds every record of the selected
    provinces. *)
Theorem default_date_range (df : DataFrame) (ps : list string) :
  rows df <> [] ->
  exists lo hi,
    App.min_date df = Some lo /\ App.max_date df = Some hi
    /\ Covid19.min_date df = Some lo /\ Covid19.max_date df = Some hi
    /\ (exists r, In r (rows df) /\ Date r = lo)
    /\ (exists r, In r (rows df) /\ Date r = hi)
    /\ (forall r, In r (rows df) -> date_le lo (Date r) /\ date_le (Date r) hi)
    /\ App.validate_dates lo hi = ret tt
    /\ rows (App.filtered_df df ps lo hi)
       = filter (App.mask_prov ps) (rows df).
Proof.
  intros Hne. unfold App.min_date, App.max_date, Covid19.min_date,
    Covid19.max_date.
  destruct (rows df) as [|r0 t] eqn:Er; [congruence|]. cbn [map date_min date_max].
  pose proof (date_min_spec (Date r0) (map Date t)) as [Hmin_in Hmin].
  pose proof (date_max_spec (Date r0) (map Date t)) as [Hmax_in Hmax].
  set (lo := fold_left (fun m x => if date_leb x m then x else m)
               (map Date t) (Date r0)) in *.
  set (hi := fold_left (fun m x => if date_leb m x then x else m)
               (map Date t) (Date r0)) in *.
  change (Date r0 :: map Date t) with (map Date (r0 :: t)) in *.
  assert (Hall : forall r, In r (r0 :: t) ->
                           date_le lo (Date r) /\ date_le (Date r) hi).
  { intros r Hr. split; [apply Hmin|apply Hmax]; now apply in_map. }
  exists lo, hi. repeat split; try reflexivity.
  - apply in_map_iff in Hmin_in. destruct Hmin_in as (r & E & Hr). eauto.
  - apply in_map_iff in Hmax_in. destruct Hmax_in as (r & E & Hr). eauto.
  - now apply Hall.
  - now apply Hall.
  - unfold App.validate_dates.
    destruct (date_ltb hi lo) eqn:E; [exfalso|reflexivity].
    destruct (Hall r0 (or_introl eq_refl)) as [H1 H2].
    apply (date_lt_not_le hi lo E). eapply date_le_trans; eassumption.
  - unfold App.filtered_df. cbn [rows]. rewrite Er.
    apply filter_ext_in. intros r Hr. destruct (Hall r Hr) as [H1 H2].
    unfold App.mask_tgl. unfold date_le in H1, H2. now rewrite H1, H2.
Qed.

End Sidebar.

(** X17, witness: the sample spans 1 to 3 March. *)
Lemma default_date_range_witness :
  App.min_date Sample.df = Some Sample.mar1
  /\ App.max_date Sample.df = Some Sample.mar3
  /\ exists lo hi,
       App.min_date Sample.df = Some lo /\ App.max_date Sample.df = Some hi
       /\ rows (App.filtered_df Sample.df ["Bali"] lo hi)
          = filter (App.mask_prov ["Bali"]) (rows Sample.df).
Proof.
  split; [reflexivity|split; [reflexivity|]].
  destruct (default_date_range Sample.df ["Bali"])
    as (lo & hi & H1 & H2 & _ & _ & _ & _ & _ & _ & H3); [discriminate|].
  exists lo, hi. auto.
Defined.

(* ================================================================== *)
(** * Further properties: the heatmap and the chart block *)
(* ================================================================== *)

Section ConstantColumn.
Import Pandas Frame Streamlit.

Lemma observations_fst (ci cj : NumCol) (rs : list Row) (x : Z) :
  In x (map fst (observations ci cj rs)) ->
  exists r, In r rs /\ num ci r = Some x.
Proof.
  intros H. apply in_map_iff in H. destruct H as ([a b] & <- & H).
  unfold observations in H. apply in_flat_map in H.
  destruct H as (r & Hr & H). exists r. split; [exact Hr|].
  destruct (num ci r) as [u|], (num cj r) as [v|]; cbn in H; try contradiction.
  destruct H as [[= <- <-]|[]]. reflexivity.
Qed.

Lemma pearson_const_fst (obs : list (Z * Z)) :
  (forall a b, In a (map fst obs) -> In b (map fst obs) -> a = b) ->
  pearson obs = None.
Proof.
  intros Hc. unfold pearson.
  destruct obs as [|o t] eqn:Eo; [reflexivity|]. rewrite <- Eo in *.
  assert (He : empty obs = false) by (now rewrite Eo). rewrite He. cbv zeta.
  assert (Hss : codeviation (mean (map fst obs)) (mean (map fst obs))
                  (map (fun p => (fst p, fst p)) obs)
                = spread (mean (map fst obs)) (map fst obs)).
  { unfold spread. now rewrite map_map. }
  rewrite Hss.
  assert (Hne : map fst obs <> []) by (rewrite Eo; discriminate).
  assert (Hall : forall y, In y (map fst obs) -> y = fst o).
  { intros y Hy. apply Hc; [exact Hy|]. rewrite Eo. now left. }
  assert (Hz : (spread (mean (map fst obs)) (map fst obs) == 0)%Q).
  { apply spread_zero. intros y Hy. rewrite (Hall y Hy).
    symmetry. now apply mean_const. }
  rewrite (Qeq_eq_bool _ 0); [reflexivity|]. rewrite Hz. ring.
Qed.

Lemma constant_column_entries (cs : list NumCol) (rs : list Row) (i j : nat)
  (ci cj : NumCol) :
  nth_error cs i = Some ci -> nth_error cs j = Some cj ->
  ~ varies ci rs ->
  entry (corr cs rs) i j = Some None /\ entry (corr cs rs) j i = Some None.
Proof.
  intros Hi Hj Hnv.
  assert (H : entry (corr cs rs) i j = Some None).
  { rewrite entry_corr, Hi, Hj. f_equal. apply pearson_const_fst.
    intros a b Ha Hb. apply observations_fst in Ha, Hb.
    destruct Ha as (r1 & Hr1 & E1), Hb as (r2 & Hr2 & E2).
    destruct (Z.eq_dec a b) as [E|Hne]; [exact E|].
    exfalso. apply Hnv. exists r1, r2, a, b. auto. }
  split; [exact H|].
  rewrite <- H. apply (proj1 (proj2 (proj2 (corr_shape cs rs)))).
Qed.

(** X18.  A column that takes a single value among the retained rows blanks
    its whole row and column of the correlation matrix: every entry that
    involves it is NaN.  In particular, when a single row is retained the
    heatmap is computed and every entry of it is NaN. *)
Theorem constant_column_blank (fdf : DataFrame) (m : list (list (option R))) :
  App.heatmap fdf = Some m ->
  (forall i j ci cj,
      nth_error (App.cols fdf) i = Some ci ->
      nth_error (App.cols fdf) j = Some cj ->
      ~ varies ci (App.corr_df fdf) ->
      entry m i j = Some None /\ entry m j i = Some None)
  /\ (List.length (App.corr_df fdf) = 1%nat ->
      forall i j ci cj,
        nth_error (App.cols fdf) i = Some ci ->
        nth_error (App.cols fdf) j = Some cj ->
        entry m i j = Some None).
Proof.
  rewrite App_heatmap_spec. destruct (negb _ && _); [|discriminate].
  intros [= <-]. split.
  - intros i j ci cj. apply constant_column_entries.
  - intros Hone i j ci cj Hi Hj.
    apply (constant_column_entries _ _ i j ci cj Hi Hj).
    intros (r1 & r2 & x1 & x2 & H1 & H2 & E1 & E2 & Hne).
    destruct (App.corr_df fdf) as [|r [|r' t]]; try discriminate.
    destruct H1 as [<-|[]], H2 as [<-|[]]. congruence.
Qed.

Context {S : DateSort}.

(** X19.  [src/covid19/app.py] shows one warning for each chart it leaves
    out, and none otherwise; [src/app.py] leaves charts out silently. *)
Theorem skipped_charts_warnings (fdf : DataFrame) (ps : list string) :
  (forall ns c, Covid19.charts fdf ps = (ns, Done c) ->
     List.length ns
     = (left_out (Covid19.bar_chart c) + left_out (Covid19.scatter_chart c)
        + left_out (Covid19.pie_chart c) + left_out (Covid19.area_chart c)
        + left_out (Covid19.heatmap_chart c))%nat)
  /\ (forall ns c, App.charts fdf ps = (ns, Done c) -> ns = []).
Proof.
  split.
  - intros ns c. unfold Covid19.charts. cbn [require_cols].
    destruct (has_col "Total Cases" fdf); [|discriminate].
    unfold Covid19.plotted.
    destruct (empty (Covid19.bar_data fdf ps));
      destruct (issubset ["Total Cases"; "Total Deaths"] fdf);
      try destruct (empty (Covid19.scat_df fdf ps));
      destruct (empty (Covid19.pie_df fdf ps));
      destruct (empty (Covid19.area_df fdf));
      destruct (Covid19.heatmap fdf);
      cbn; intros [= <- <-]; reflexivity.
  - intros ns c. unfold App.charts. cbn [require_cols].
    destruct (has_col "Total Cases" fdf); [|discriminate].
    cbn. now intros [= <- _].
Qed.

End ConstantColumn.

(** X18, witness: in the sample without deaths, the entry of [New Deaths]
    against [New Cases] is NaN. *)
Lemma constant_column_blank_witness :
  Pandas.entry
    (Pandas.corr
       (App.cols (App.filtered_df SampleCorr.df_no_deaths ["Bali"]
                    Sample.mar1 Sample.mar2))
       (App.corr_df (App.filtered_df SampleCorr.df_no_deaths ["Bali"]
                       Sample.mar1 Sample.mar2))) 1 0 = Some None.
Proof.
  refine (proj1 (proj1 (constant_column_blank
                   (App.filtered_df SampleCorr.df_no_deaths ["Bali"]
                      Sample.mar1 Sample.mar2) _ eq_refl)
                   1%nat 0%nat NewDeaths NewCases eq_refl eq_refl _)).
  intros (r1 & r2 & x1 & x2 & H1 & H2 & E1 & E2 & Hne).
  vm_compute in H1, H2. each_row H1; each_row H2; vm_compute in E1, E2;
    congruence.
Defined.

(* ================================================================== *)
(** * Further properties: the recovered chart, and row order *)
(* ================================================================== *)

Section Recovered.
Import Pandas Frame.
Context {S : DateSort}.

(** X20.  The data of the recovered chart of [src/app.py] has an entry for
    exactly the selected provinces of which some record in the view holds a
    recovered total, in the order of the selection, and each value is the
    recovered total of a record of that province. *)
Theorem pie_rec_df_spec (fdf : DataFrame) (provinces : list string) :
  map fst (App.pie_rec_df fdf provinces)
  = filter (holds TotalRecovered (rows fdf)) provinces
  /\ (forall p v, In (p, v) (App.pie_rec_df fdf provinces) ->
        exists r, In r (rows fdf) /\ Province r = Some p
                  /\ Total_Recovered r = Some v).
Proof.
  unfold App.pie_rec_df. rewrite reindex_groupby_last. split.
  - rewrite dropna_labels_of. apply filter_ext. intros p.
    apply notna_group_value.
  - intros p v H. apply in_dropna in H. destruct H as [_ Hv].
    exact (group_value_some TotalRecovered _ _ _ Hv).
Qed.

End Recovered.

Section RowOrder.
Import Pandas Frame.

Lemma group_unique (S S' : DateSort) (rs rs' : list Row) (p : string) :
  Permutation rs rs' ->
  NoDup (map Date (filter (in_group p) rs)) ->
  filter (in_group p) (@sort_values S _ Date rs)
  = filter (in_group p) (@sort_values S' _ Date rs').
Proof.
  intros Hp Hnd.
  assert (P1 : Permutation (filter (in_group p) rs)
                 (filter (in_group p) (@sort_values S _ Date rs)))
    by apply (@sorted_group_perm S).
  assert (P2 : Permutation (filter (in_group p) rs)
                 (filter (in_group p) (@sort_values S' _ Date rs'))).
  { eapply perm_trans; [apply Permutation_filter, Hp|].
    apply (@sorted_group_perm S'). }
  apply (ascending_unique (fun a b => date_lt (Date a) (Date b))).
  - intros a b. apply date_lt_asym.
  - apply strictly_ascending; [apply (@sorted_group_sorted S)|].
    eapply Permutation_NoDup; [apply Permutation_map, P1|exact Hnd].
  - apply strictly_ascending; [apply (@sorted_group_sorted S')|].
    eapply Permutation_NoDup; [apply Permutation_map, P2|exact Hnd].
  - eapply perm_trans; [apply Permutation_sym, P1|exact P2].
Qed.

(** X21.  When no selected province has two records of the same date in
    the view, the bar, pie and scatter data as a whole depend neither on
    the order of the rows nor on the sorting algorithm. *)
Theorem reductions_row_order (S S' : DateSort) (fdf fdf' : DataFrame)
  (provinces : list string) :
  Permutation (rows fdf) (rows fdf') ->
  (forall p, In p provinces ->
             NoDup (map Date (filter (in_group p) (rows fdf)))) ->
  @App.bar_data S fdf provinces = @App.bar_data S' fdf' provinces
  /\ @App.pie_df S fdf provinces = @App.pie_df S' fdf' provinces
  /\ @App.scat_df S fdf provinces = @App.scat_df S' fdf' provinces
  /\ @App.pie_rec_df S fdf provinces = @App.pie_rec_df S' fdf' provinces.
Proof.
  intros Hp Hnd.
  assert (Hg : forall c p, In p provinces ->
             group_value c (@sort_values S _ Date (rows fdf)) p
             = group_value c (@sort_values S' _ Date (rows fdf')) p).
  { intros c p Hin. unfold group_value.
    now rewrite (group_unique S S' _ _ p Hp (Hnd p Hin)). }
  unfold App.bar_data, App.pie_df, App.scat_df, App.pie_rec_df.
  rewrite !(@reindex_groupby_last), !(@reindex_groupby_last2).
  assert (H1 : forall c,
             map (fun p => (p, group_value c
                                 (@sort_values S _ Date (rows fdf)) p))
                 provinces
             = map (fun p => (p, group_value c
                                   (@sort_values S' _ Date (rows fdf')) p))
                   provinces).
  { intros c. apply map_ext_in. intros p Hin. now rewrite (Hg c p Hin). }
  rewrite !H1. repeat split. f_equal.
  apply map_ext_in. intros p Hin.
  now rewrite (Hg TotalCases p Hin), (Hg TotalDeaths p Hin).
Qed.

End RowOrder.

(** X21, witness: the sample and its shuffle, a stable and a non-stable
    sort. *)
Lemma reductions_row_order_witness :
  @App.scat_df Insertion
    (App.filtered_df Sample.df ["Aceh"; "Bali"] Sample.mar1 Sample.mar3)
    ["Aceh"; "Bali"]
  = @App.scat_df Reversing
      (App.filtered_df Sample.df_shuffled ["Aceh"; "Bali"]
         Sample.mar1 Sample.mar3) ["Aceh"; "Bali"].
Proof.
  refine (proj1 (proj2 (proj2 (reductions_row_order Insertion Reversing
            (App.filtered_df Sample.df ["Aceh"; "Bali"]
               Sample.mar1 Sample.mar3)
            (App.filtered_df Sample.df_shuffled ["Aceh"; "Bali"]
               Sample.mar1 Sample.mar3)
            ["Aceh"; "Bali"] _ _)))).
  - apply NoDup_Permutation_bis.
    + vm_compute. repeat constructor; simpl; intuition discriminate.
    + simpl; lia.
    + intros r Hr. vm_compute in Hr. each_row Hr; vm_compute; tauto.
  - intros p Hp. each_row Hp; vm_compute;
      repeat constructor; simpl; intuition discriminate.
Defined.
